(** * KubeFreezer: the management front end and the admission core

    The development follows the repository layout.

    - [JS]        strings, values and exceptions of the TypeScript front end
    - [Api]       services/api.ts   (class KubeFreezerAPI)
    - [Auth]      services/auth.ts  (validateApiKey, login, isAuthenticated)
    - [CreateExemptionModal], [ExemptionsPage]  pages/Exemptions.tsx
    - [ApplyTemplateModal]  pages/Templates.tsx
    - [RefDate]   a reference Date, to run the handlers
    - [Core]      the admission decision engine (exemption store, evaluator)
    - [Samples]   the inputs the handlers are run on

    Strings of the front end are sequences of UTF-16 code units, so that
    [trim] and [parseInt] see the white space the language defines. *)

From stdpp Require Import base option list gmap sets strings.
From Stdlib Require Import ZArith NArith Lia.

Local Open Scope Z_scope.
#[local] Set Warnings "-register-all".

(* ===================================================================== *)
(** ** JavaScript strings, values, exceptions *)
(* ===================================================================== *)

Module JS.

(** A string is its list of UTF-16 code units. *)
Definition jsstring := list N.

(** [lit "abc"] is the string literal of the source, ASCII only. *)
Definition lit (s : string) : jsstring :=
    List.map Ascii.N_of_ascii (String.list_ascii_of_string s).

(** WhiteSpace and LineTerminator of ECMAScript: TAB, LF, VT, FF, CR, SP,
      NBSP, the Unicode space separators, LS, PS and the BOM. *)
Definition isWhiteSpace (c : N) : bool :=
    ((9 <=? c) && (c <=? 13) || (c =? 32) || (c =? 160) || (c =? 5760)
     || ((8192 <=? c) && (c <=? 8202)) || (c =? 8232) || (c =? 8233)
     || (c =? 8239) || (c =? 8287) || (c =? 12288) || (c =? 65279))%N.

Fixpoint trimStart (s : jsstring) : jsstring :=
    match s with
    | c :: s' => if isWhiteSpace c then trimStart s' else s
    | [] => []
    end.

Definition trimEnd (s : jsstring) : jsstring :=
    rev (trimStart (rev s)).

(** String.prototype.trim *)
Definition trim (s : jsstring) : jsstring := trimEnd (trimStart s).

(** Truthiness of a string: [!s] is [true] exactly on the empty string. *)
Definition nonEmpty (s : jsstring) : bool :=
    match s with [] => false | _ :: _ => true end.

(** Values that flow through the API client: what JSON.parse returns,
      plus [undefined].  Numbers stand for their integer value; the client
      only tests them for zero. *)
Inductive value :=
  | VUndefined
  | VNull
  | VBool (b : bool)
  | VNum (n : Z)
  | VStr (s : jsstring)
  | VArr (items : list value)
  | VObj (fields : list (string * value)).

(** ToBoolean *)
Definition truthy (v : value) : bool :=
    match v with
    | VUndefined | VNull => false
    | VBool b => b
    | VNum n => negb (n =? 0)
    | VStr s => nonEmpty s
    | VArr _ | VObj _ => true
    end.

Definition isArray (v : value) : bool :=
    match v with VArr _ => true | _ => false end.

(** Error messages.  [Text] is a literal of the source, [OfValue v] the
      string conversion of a value taken from a response body,
      [RequestFailed t] the template `Request failed: ${t}`, and [Engine]
      the message of an error raised by the runtime itself. *)
Inductive message :=
  | Text (s : string)
  | OfValue (v : value)
  | RequestFailed (statusText : jsstring)
  | Engine.

(** What a [throw] or a rejected promise carries. *)
Inductive thrown :=
  | Error (m : message)     (* instanceof Error *)
  | NonError.               (* anything else *)

Inductive result (A : Type) :=
  | Return (a : A)
  | Throw (t : thrown).
Arguments Return {A} a.
Arguments Throw {A} t.

(** JSON.parse keeps the last of duplicate keys. *)
Fixpoint lookupField (k : string) (fields : list (string * value)) : value :=
    match fields with
    | [] => VUndefined
    | (k', v) :: rest =>
        match lookupField k rest with
        | VUndefined => if String.eqb k k' then v else VUndefined
        | found => found
        end
    end.

(** Property read [v.k] for the two own-property names the client reads
      ([data] and [detail]): a TypeError on [undefined] and [null], the
      field of an object, [undefined] on primitives and arrays. *)
Definition get (v : value) (k : string) : result value :=
    match v with
    | VUndefined | VNull => Throw (Error Engine)
    | VObj fields => Return (lookupField k fields)
    | _ => Return VUndefined
    end.

(** Whether an object has the own property [k]. *)
Definition hasField (k : string) (v : value) : bool :=
  match v with
  | VObj fields => existsb (fun kv => String.eqb k kv.1) fields
  | _ => false
  end.

(** [err instanceof Error ? err.message : fallback] *)
Definition messageOr (fallback : string) (t : thrown) : message :=
    match t with
    | Error m => m
    | NonError => Text fallback
    end.

(** *** parseInt with no radix *)

Definition digitValue (c : N) : option Z :=
    if ((48 <=? c) && (c <=? 57))%N then Some (Z.of_N c - 48)
    else if ((97 <=? c) && (c <=? 122))%N then Some (Z.of_N c - 87)
    else if ((65 <=? c) && (c <=? 90))%N then Some (Z.of_N c - 55)
    else None.

(** The longest prefix of radix-[r] digits, read left to right;
      [None] when the prefix is empty. *)
Fixpoint digits (r : Z) (acc : option Z) (s : jsstring) : option Z :=
    match s with
    | c :: s' =>
        match digitValue c with
        | Some d =>
            if d <? r then digits r (Some (r * default 0 acc + d)) s'
            else acc
        | None => acc
        end
    | [] => acc
    end.

(** [parseInt(s)]: [None] is NaN.  Leading white space is skipped, a sign
      is read, a [0x]/[0X] prefix selects radix 16.  The integer is exact
      (the rounding of very long digit strings is not modelled; it never
      turns a non-zero integer into zero and keeps the sign). *)
Definition parseInt (s : jsstring) : option Z :=
    let s1 := trimStart s in
    let '(sign, s2) :=
      match s1 with
      | 45%N :: r => (-1, r)
      | 43%N :: r => (1, r)
      | _ => (1, s1)
      end in
    let '(radix, s3) :=
      match s2 with
      | 48%N :: 120%N :: r => (16, r)
      | 48%N :: 88%N :: r => (16, r)
      | _ => (10, s2)
      end in
    match digits radix None s3 with
    | Some n => Some (sign * n)
    | None => None
    end.

(** [parseInt(s) || d]: NaN and (either) zero are falsy. *)
Definition parseIntOr (s : jsstring) (d : Z) : Z :=
    match parseInt s with
    | Some n => if n =? 0 then d else n
    | None => d
    end.

(** A [Date]: its time value in milliseconds, [None] for Invalid Date. *)
Definition Date := option Z.

(** Relational comparison of two dates: false when either is invalid. *)
Definition dateGt (a b : Date) : bool :=
    match a, b with
    | Some x, Some y => y <? x
    | _, _ => false
    end.

Definition dateLe (a b : Date) : bool :=
    match a, b with
    | Some x, Some y => x <=? y
    | _, _ => false
    end.

End JS.

(* ===================================================================== *)
(** ** services/api.ts: class KubeFreezerAPI *)
(* ===================================================================== *)

Module Api.
Import JS.

(** The mutable part of the singleton [api]: the private field [token]
      and the localStorage entry [kubefreezer_token] ([None] is [null]). *)
Record state := {
    token : option jsstring;
    localStorage_token : option jsstring
  }.

Inductive method := GET | POST | DELETE.

(** What [request] hands to [fetch]. *)
Record HttpRequest := {
    url : jsstring;
    http_method : method;
    authorization : option jsstring;   (* the token after `Bearer ` *)
    http_body : option value           (* the value given to JSON.stringify *)
  }.

(** [body = None]: [response.json()] rejects. *)
Record Response := {
    status : Z;
    statusText : jsstring;
    body : option value
  }.

(** The promise [fetch] returns either rejects or yields a response. *)
Inductive fetchResult :=
  | Rejected (t : thrown)
  | Responded (r : Response).

(** [response.ok] *)
Definition ok (r : Response) : bool := (200 <=? status r) && (status r <=? 299).

(** constructor: the token is loaded from localStorage. *)
Definition init (stored : option jsstring) : state :=
    {| token := stored; localStorage_token := stored |}.

Definition setToken (tok : jsstring) (st : state) : state :=
    let trimmedToken := trim tok in
    {| token := Some trimmedToken; localStorage_token := Some trimmedToken |}.

(** [a || b] on [string | null] *)
Definition orElse (a b : option jsstring) : option jsstring :=
    match a with
    | Some (_ :: _) => a
    | _ => b
    end.

Definition getToken (st : state) : option jsstring :=
    match orElse (token st) (localStorage_token st) with
    | Some (c :: s) => Some (trim (c :: s))
    | _ => None
    end.

Definition clearToken (st : state) : state :=
    {| token := None; localStorage_token := None |}.

(** [!!this.getToken()] *)
Definition isAuthenticated (st : state) : bool :=
    match getToken st with
    | Some s => nonEmpty s
    | None => false
    end.

Definition apiBase : jsstring := lit "/api/v1".

(** [await response.json().catch(() => ({ detail: d }))] *)
Definition jsonOr (d : string) (r : Response) : value :=
    match body r with
    | Some v => v
    | None => VObj [("detail"%string, VStr (lit d))]
    end.

(** The call [request] makes; the Authorization header is present when
    the token is truthy. *)
Definition outgoing (endpoint : jsstring) (m : method) (payload : option value)
    (st : state) : HttpRequest :=
  {| url := apiBase ++ endpoint;
     http_method := m;
     authorization :=
       match getToken st with
       | Some (c :: s) => Some (c :: s)
       | _ => None
       end;
     http_body := payload |}.

(** A response with status 401. *)
Definition unauthorized (r : fetchResult) : bool :=
  match r with
  | Responded response => status response =? 401
  | Rejected _ => false
  end.

Section WithFetch.
Variable fetch : HttpRequest -> fetchResult.

(** [private async request<T>(endpoint, options)]: [fetch] is called on
    [outgoing], then the response is sorted by status. *)
Definition request (endpoint : jsstring) (m : method) (payload : option value)
    (st : state) : result value * state :=
      match fetch (outgoing endpoint m payload st) with
      | Rejected (Error e) => (Throw (Error e), st)
      | Rejected NonError => (Throw (Error (Text "Network error")), st)
      | Responded response =>
          if status response =? 401 then
            (Throw (Error (Text "Authentication required")), clearToken st)
          else if status response =? 403 then
            match get (jsonOr "Forbidden" response) "detail" with
            | Throw t => (Throw t, st)
            | Return d =>
                (Throw (Error (if truthy d then OfValue d
                               else Text "Access forbidden")), st)
            end
          else if negb (ok response) then
            match get (jsonOr "Request failed" response) "detail" with
            | Throw t => (Throw t, st)
            | Return d =>
                (Throw (Error (if truthy d then OfValue d
                               else RequestFailed (statusText response))), st)
            end
          else
            match body response with
            | None => (Throw (Error Engine), st)
            | Some data =>
                match get data "data" with
                | Throw t => (Throw t, st)
                | Return d => (Return d, st)
                end
            end
      end.

(** [Array.isArray(response) ? response : (response as any).data || []] *)
Definition unwrapList (response : value) : result value :=
      if isArray response then Return response
      else match get response "data" with
           | Throw t => Throw t
           | Return d => Return (if truthy d then d else VArr [])
           end.

Definition getExemptions (st : state) : result value * state :=
      match request (lit "/freeze/exemptions") GET None st with
      | (Return response, st') => (unwrapList response, st')
      | (Throw t, st') => (Throw t, st')
      end.

Definition createExemption (payload : value) (st : state)
        : result value * state :=
      request (lit "/freeze/exemptions") POST (Some payload) st.

(** [applyTemplate]: ['data' in response && response.data] unwraps a
        wrapped reply; [in] raises a TypeError on a non-object. *)
Definition applyTemplate (payload : value) (st : state)
        : result value * state :=
      match request (lit "/freeze/templates/apply") POST (Some payload) st with
      | (Return response, st') =>
          match response with
          | VObj fields =>
              let d := lookupField "data" fields in
              (Return (if truthy d then d else response), st')
          | VArr _ => (Return response, st')
          | _ => (Throw (Error Engine), st')
          end
      | (Throw t, st') => (Throw t, st')
      end.

End WithFetch.

End Api.

(* ===================================================================== *)
(** ** services/auth.ts *)
(* ===================================================================== *)

Module Auth.
Import JS Api.

Section WithFetch.
Variable fetch : HttpRequest -> fetchResult.

(** The token is set first; any exception of the probe request is
        swallowed and reported as [false]. *)
Definition validateApiKey (apiKey : jsstring) (st : state) : bool * state :=
      let trimmedKey := trim apiKey in
      let st1 := setToken trimmedKey st in
      match getExemptions fetch st1 with
      | (Return _, st2) => (true, st2)
      | (Throw _, st2) => (false, st2)
      end.

Definition login (apiKey : jsstring) (st : state) : bool * state :=
      let trimmedKey := trim apiKey in
      let '(isValid, st1) := validateApiKey trimmedKey st in
      if isValid then (true, setToken trimmedKey st1)
      else (false, st1).

Definition logout (st : state) : state := clearToken st.

Definition isAuthenticated (st : state) : bool := Api.isAuthenticated st.

End WithFetch.

(** The request [validateApiKey] probes the key with: the exemption list,
    under the token it has just stored. *)
Definition probe (apiKey : jsstring) : HttpRequest :=
  outgoing (lit "/freeze/exemptions") GET None (setToken apiKey (init None)).

End Auth.

(* ===================================================================== *)
(** ** types/index.ts *)
(* ===================================================================== *)

(** An optional property ([resource_name?: string]) is an [option]; [None]
    is the property left out of the object. *)
Module ExemptionCreateRequest.
Record t := {
  namespace : JS.jsstring;
  resource_name : option JS.jsstring;
  duration_minutes : Z;
  reason : JS.jsstring;
  approved_by : JS.jsstring
}.

(** The object literal handed to JSON.stringify: the four fixed properties
    in source order, then the spread of [resource_name]. *)
Definition toJSON (r : t) : JS.value :=
  JS.VObj ([("namespace"%string, JS.VStr (namespace r));
            ("duration_minutes"%string, JS.VNum (duration_minutes r));
            ("reason"%string, JS.VStr (reason r));
            ("approved_by"%string, JS.VStr (approved_by r))]
           ++ match resource_name r with
              | Some n => [("resource_name"%string, JS.VStr n)]
              | None => []
              end).
End ExemptionCreateRequest.

(** [Exemption] as the API returns it; the two instants are ISO strings. *)
Module Exemption.
Record t := {
  id : JS.jsstring;
  namespace : JS.jsstring;
  resource_name : option JS.jsstring;
  duration_minutes : Z;
  reason : JS.jsstring;
  approved_by : JS.jsstring;
  created_at : JS.jsstring;
  expires_at : JS.jsstring;
  used : bool
}.
End Exemption.

(** [Schedule]: [start], [end] and [cron] are required properties. *)
Module Schedule.
Record t := {
  name : JS.jsstring;
  start : JS.jsstring;
  end_ : JS.jsstring;
  cron : JS.jsstring;
  namespaces : option (list JS.jsstring);
  message : option JS.jsstring
}.

Definition optional (k : string) (v : option JS.value) : list (string * JS.value) :=
  match v with
  | Some x => [(k, x)]
  | None => []
  end.

(** JSON.stringify drops the properties whose value is [undefined]. *)
Definition toJSON (s : t) : JS.value :=
  JS.VObj ([("name"%string, JS.VStr (name s));
            ("start"%string, JS.VStr (start s));
            ("end"%string, JS.VStr (end_ s));
            ("cron"%string, JS.VStr (cron s))]
           ++ optional "namespaces"
                (JS.VArr ∘ List.map JS.VStr <$> namespaces s)
           ++ optional "message" (JS.VStr <$> message s)).
End Schedule.

(* ===================================================================== *)
(** ** pages/Exemptions.tsx *)
(* ===================================================================== *)

Module CreateExemptionModal.
Import JS Api.

(** The five [useState] cells of the form. *)
Record form := {
  namespace : jsstring;
  resourceName : jsstring;
  durationMinutes : Z;
  reason : jsstring;
  approvedBy : jsstring
}.

Definition initial : form :=
  {| namespace := []; resourceName := []; durationMinutes := 60;
     reason := []; approvedBy := [] |}.

(** The [onChange] handlers, one per input. *)
Inductive change :=
| ChangeNamespace (v : jsstring)
| ChangeResourceName (v : jsstring)
| ChangeDurationMinutes (v : jsstring)
| ChangeReason (v : jsstring)
| ChangeApprovedBy (v : jsstring).

Definition onChange (f : form) (c : change) : form :=
  match c with
  | ChangeNamespace v =>
      {| namespace := v; resourceName := resourceName f;
         durationMinutes := durationMinutes f; reason := reason f;
         approvedBy := approvedBy f |}
  | ChangeResourceName v =>
      {| namespace := namespace f; resourceName := v;
         durationMinutes := durationMinutes f; reason := reason f;
         approvedBy := approvedBy f |}
  | ChangeDurationMinutes v =>
      {| namespace := namespace f; resourceName := resourceName f;
         durationMinutes := parseIntOr v 60; reason := reason f;
         approvedBy := approvedBy f |}
  | ChangeReason v =>
      {| namespace := namespace f; resourceName := resourceName f;
         durationMinutes := durationMinutes f; reason := v;
         approvedBy := approvedBy f |}
  | ChangeApprovedBy v =>
      {| namespace := namespace f; resourceName := resourceName f;
         durationMinutes := durationMinutes f; reason := reason f;
         approvedBy := v |}
  end.

(** The form after a session of edits. *)
Definition edited (cs : list change) : form := fold_left onChange cs initial.

(** The body of the [try] up to the API call: four guards, then the
    request object. *)
Definition buildRequest (f : form) : result ExemptionCreateRequest.t :=
  if negb (nonEmpty (trim (namespace f))) then
    Throw (Error (Text "Namespace is required"))
  else if negb (nonEmpty (trim (reason f))) then
    Throw (Error (Text "Reason is required"))
  else if negb (nonEmpty (trim (approvedBy f))) then
    Throw (Error (Text "Approved by is required"))
  else if durationMinutes f <? 1 then
    Throw (Error (Text "Duration must be at least 1 minute"))
  else
    Return {| ExemptionCreateRequest.namespace := trim (namespace f);
              ExemptionCreateRequest.duration_minutes := durationMinutes f;
              ExemptionCreateRequest.reason := trim (reason f);
              ExemptionCreateRequest.approved_by := trim (approvedBy f);
              ExemptionCreateRequest.resource_name :=
                if nonEmpty (trim (resourceName f))
                then Some (trim (resourceName f)) else None |}.

(** What the user sees: [Created] is [onSuccess(); onClose()], [Failed m]
    is [setError(m)]. *)
Inductive outcome :=
| Created
| Failed (m : message).

Definition handleSubmit (fetch : HttpRequest -> fetchResult)
    (f : form) (st : state) : outcome * state :=
  match buildRequest f with
  | Throw t => (Failed (messageOr "Failed to create exemption" t), st)
  | Return request =>
      match createExemption fetch (ExemptionCreateRequest.toJSON request) st with
      | (Return _, st') => (Created, st')
      | (Throw t, st') =>
          (Failed (messageOr "Failed to create exemption" t), st')
      end
  end.

(** The HTTP call that carries a built request. *)
Definition sent (request : ExemptionCreateRequest.t) (st : state) : HttpRequest :=
  outgoing (lit "/freeze/exemptions") POST
    (Some (ExemptionCreateRequest.toJSON request)) st.

End CreateExemptionModal.

Module ExemptionsPage.
Import JS.

Inductive status := Used | Active | Expired.

(** The badge of a table row.  [newDate] is the Date constructor on a
    string, [now] the time value of [new Date()]. *)
Definition statusOf (newDate : jsstring -> Date) (now : Z) (e : Exemption.t)
    : status :=
  if Exemption.used e then Used
  else if dateGt (newDate (Exemption.expires_at e)) (Some now) then Active
  else Expired.

End ExemptionsPage.

(* ===================================================================== *)
(** ** pages/Templates.tsx *)
(* ===================================================================== *)

Module ApplyTemplateModal.
Import JS Api.

Record form := {
  scheduleName : jsstring;
  startDate : jsstring;
  startTime : jsstring;
  endDate : jsstring;
  endTime : jsstring;
  cron : jsstring;
  namespaces : list jsstring;
  message : jsstring
}.

(** The template strings `${startDate}T${startTime}:00` and
    `${endDate}T${endTime}:00`. *)
Definition startInput (f : form) : jsstring :=
  startDate f ++ lit "T" ++ startTime f ++ lit ":00".

Definition endInput (f : form) : jsstring :=
  endDate f ++ lit "T" ++ endTime f ++ lit ":00".

Section WithDate.
(** The Date constructor on a string (local time when the string has no
    zone) and [Date.prototype.toISOString] on a valid time value. *)
Variable newDate : jsstring -> Date.
Variable toISOString : Z -> jsstring.

(** The body of the [try] up to the API call. *)
Definition buildSchedule (f : form) : result Schedule.t :=
  if negb (nonEmpty (startDate f)) || negb (nonEmpty (startTime f)) then
    Throw (Error (Text "Start date and time are required"))
  else if negb (nonEmpty (endDate f)) || negb (nonEmpty (endTime f)) then
    Throw (Error (Text "End date and time are required"))
  else
    let startDateTime := newDate (startInput f) in
    let endDateTime := newDate (endInput f) in
    match startDateTime with
    | None => Throw (Error (Text "Invalid start date/time values"))
    | Some s =>
        match endDateTime with
        | None => Throw (Error (Text "Invalid end date/time values"))
        | Some e =>
            if dateLe endDateTime startDateTime then
              Throw (Error (Text "End date/time must be after start date/time"))
            else if negb (nonEmpty (cron f)) then
              Throw (Error (Text "Cron expression is required"))
            else
              Return {| Schedule.name := scheduleName f;
                        Schedule.start := toISOString s;
                        Schedule.end_ := toISOString e;
                        Schedule.cron := cron f;
                        Schedule.namespaces :=
                          if (0 <? length (namespaces f))%nat
                          then Some (namespaces f) else None;
                        Schedule.message :=
                          if nonEmpty (message f)
                          then Some (message f) else None |}
        end
    end.

Inductive outcome :=
| Applied (scheduleName : jsstring)
| Failed (m : JS.message).

(** [{ template_name, parameters: { override_schedule: schedule } }] *)
Definition applyBody (templateName : jsstring) (s : Schedule.t) : value :=
  VObj [("template_name"%string, VStr templateName);
        ("parameters"%string,
         VObj [("override_schedule"%string, Schedule.toJSON s)])].

Definition handleSubmit (fetch : HttpRequest -> fetchResult)
    (templateName : jsstring) (f : form) (st : state) : outcome * state :=
  match buildSchedule f with
  | Throw t => (Failed (messageOr "Failed to apply template" t), st)
  | Return schedule =>
      match applyTemplate fetch (applyBody templateName schedule) st with
      | (Return _, st') => (Applied (Schedule.name schedule), st')
      | (Throw t, st') => (Failed (messageOr "Failed to apply template" t), st')
      end
  end.

End WithDate.

(** The three shapes a schedule description can take, read off the inputs
    that are filled in: a window only, a cron only, or both. *)
Inductive shape := AbsoluteOnly | CronOnly | WindowAndCron.

Definition hasWindow (f : form) : bool :=
  nonEmpty (startDate f) && nonEmpty (startTime f)
  && nonEmpty (endDate f) && nonEmpty (endTime f).

Definition noWindow (f : form) : bool :=
  negb (nonEmpty (startDate f)) && negb (nonEmpty (endDate f)).

Definition shapeOf (f : form) : option shape :=
  if hasWindow f then
    Some (if nonEmpty (cron f) then WindowAndCron else AbsoluteOnly)
  else if noWindow f && nonEmpty (cron f) then Some CronOnly
  else None.

End ApplyTemplateModal.

(* ===================================================================== *)
(** ** A reference Date *)
(* ===================================================================== *)

(** The handlers above take the host's Date as a parameter.  To run them,
    this is a Date for a host whose local zone is UTC, on the one format the
    forms produce ([YYYY-MM-DDTHH:mm:ss]) and on years 0000 to 9999. *)
Module RefDate.
Import JS.

Definition digit (c : N) : option Z :=
  if ((48 <=? c) && (c <=? 57))%N then Some (Z.of_N c - 48) else None.

(** A field of decimal digits, all of them required. *)
Fixpoint number (acc : Z) (s : jsstring) : option Z :=
  match s with
  | [] => Some acc
  | c :: s' =>
      match digit c with
      | Some d => number (10 * acc + d) s'
      | None => None
      end
  end.

Definition isLeap (y : Z) : bool :=
  ((y mod 4 =? 0) && negb (y mod 100 =? 0)) || (y mod 400 =? 0).

Definition daysInMonth (y m : Z) : Z :=
  if m =? 2 then (if isLeap y then 29 else 28)
  else if (m =? 4) || (m =? 6) || (m =? 9) || (m =? 11) then 30
  else 31.

(** Days from 1970-01-01 to the civil date [y-m-d]. *)
Definition daysFromCivil (y m d : Z) : Z :=
  let y' := if m <=? 2 then y - 1 else y in
  let era := y' / 400 in
  let yoe := y' - era * 400 in
  let doy := (153 * (if 2 <? m then m - 3 else m + 9) + 2) / 5 + d - 1 in
  let doe := yoe * 365 + yoe / 4 - yoe / 100 + doy in
  era * 146097 + doe - 719468.

Definition civilFromDays (z : Z) : Z * Z * Z :=
  let z := z + 719468 in
  let era := z / 146097 in
  let doe := z - era * 146097 in
  let yoe := (doe - doe / 1460 + doe / 36524 - doe / 146096) / 365 in
  let doy := doe - (365 * yoe + yoe / 4 - yoe / 100) in
  let mp := (5 * doy + 2) / 153 in
  let d := doy - (153 * mp + 2) / 5 + 1 in
  let m := if mp <? 10 then mp + 3 else mp - 9 in
  (yoe + era * 400 + (if m <=? 2 then 1 else 0), m, d).

Definition inRange (lo hi x : Z) : bool := (lo <=? x) && (x <=? hi).

Definition newDate (s : jsstring) : Date :=
  match s with
  | [y1; y2; y3; y4; 45%N; m1; m2; 45%N; d1; d2; 84%N;
     h1; h2; 58%N; n1; n2; 58%N; s1; s2] =>
      y ← number 0 [y1; y2; y3; y4];
      m ← number 0 [m1; m2];
      d ← number 0 [d1; d2];
      h ← number 0 [h1; h2];
      n ← number 0 [n1; n2];
      sec ← number 0 [s1; s2];
      if inRange 1 12 m && inRange 1 (daysInMonth y m) d
         && inRange 0 23 h && inRange 0 59 n && inRange 0 59 sec
      then Some ((((daysFromCivil y m d * 24 + h) * 60 + n) * 60 + sec) * 1000)
      else None
  | _ => None
  end.

(** The [w] low decimal digits of [x], most significant first. *)
Fixpoint padded (w : nat) (x : Z) : jsstring :=
  match w with
  | O => []
  | S w' => padded w' (x / 10) ++ [Z.to_N (48 + x mod 10)]
  end.

Definition toISOString (t : Z) : jsstring :=
  let days := t / 86400000 in
  let ms := t mod 86400000 in
  let '(y, m, d) := civilFromDays days in
  padded 4 y ++ lit "-" ++ padded 2 m ++ lit "-" ++ padded 2 d ++ lit "T"
  ++ padded 2 (ms / 3600000) ++ lit ":" ++ padded 2 (ms / 60000 mod 60)
  ++ lit ":" ++ padded 2 (ms / 1000 mod 60) ++ lit "." ++ padded 3 (ms mod 1000)
  ++ lit "Z".

End RefDate.


(* ===================================================================== *)
(** ** The admission core *)
(* ===================================================================== *)

(** The decision engine runs in the back end, whose sources are outside
    this tree; its definitions follow the design document section by
    section.  Instants are milliseconds since the epoch.  The history
    recorder is left out. *)
Module Core.

(** *** Data model *)

(** Modelled from the spec: the policy configuration snapshot (section 3);
    the back-end config cache is missing. *)
Record Config := {
  freeze_enabled : bool;
  freeze_until : option Z;
  freeze_message : string;
  bypass_annotation_key : string;
  bypass_allowed_users : gset string;
  bypass_exempt_namespaces : gset string;
  monitored_kinds : gset string;
  fail_closed : bool
}.

(** Modelled from the spec: a stored exemption (section 3); the back-end
    exemption record is missing. *)
Record Exemption := {
  id : string;
  namespace : string;
  resource_name : option string;
  duration_minutes : Z;
  reason : string;
  approved_by : string;
  created_at : Z;
  expires_at : Z;
  used : bool
}.

(** Modelled from the spec: a schedule (section 3); the back-end schedule
    record is missing.  An empty [namespaces] means all. *)
Record Schedule := {
  name : string;
  message : option string;
  namespaces : list string;
  start : option Z;
  end_ : option Z;
  cron : option string;
  timezone : string
}.

(** Modelled from the spec: the operations of an admission payload
    (section 6). *)
Inductive Operation := CREATE | UPDATE | DELETE | CONNECT.

(** Modelled from the spec: the evaluator's input (section 4.7). *)
Record AdmissionRequest := {
  kind : string;
  req_namespace : string;
  resourceName : option string;
  user : string;
  groups : list string;
  annotations : gmap string string;
  operation : Operation
}.

(** Modelled from the spec: the decision categories of section 4.7. *)
Inductive Category :=
| NOT_MONITORED
| BYPASS_ANNOTATION
| BYPASS_USER
| BYPASS_NAMESPACE
| BYPASS_EXEMPTION
| FROZEN
| NO_FREEZE
| INTERNAL_ERROR.

(** Modelled from the spec: the evaluator's output (section 4.7).  The
    reason is filled where the document says what it holds. *)
Record Decision := {
  allow : bool;
  decision_reason : string;
  category : Category
}.

(** *** Exemption store (section 4.4) *)

(** Modelled from the spec: the exemption collection, in insertion order;
    exemptions are unique by [id]. *)
Definition store := list Exemption.

Definition minute : Z := 60000.

(** Modelled from the spec: an exemption is expired when
    [expires_at <= now] (section 4.4). *)
Definition expired (now : Z) (e : Exemption) : bool := expires_at e <=? now.

(** Modelled from the spec: "the exemption is marked [used=true]". *)
Definition markUsed (e : Exemption) : Exemption :=
  {| id := id e; namespace := namespace e; resource_name := resource_name e;
     duration_minutes := duration_minutes e; reason := reason e;
     approved_by := approved_by e; created_at := created_at e;
     expires_at := expires_at e; used := true |}.

(** Modelled from the spec: the match condition of section 4.4: same
    namespace, stored resource name absent or equal to the requested one,
    and not yet used. *)
Definition candidate (ns : string) (rn : option string) (e : Exemption) : bool :=
  negb (used e) && String.eqb (namespace e) ns
  && match resource_name e with
     | None => true
     | Some r => bool_decide (rn = Some r)
     end.

(** Modelled from the spec: the first candidate in store order; a
    resource-specific one is marked used in the same step. *)
Fixpoint scan (ns : string) (rn : option string) (s : store)
    : option Exemption * store :=
  match s with
  | [] => (None, [])
  | e :: rest =>
      if candidate ns rn e then
        match resource_name e with
        | Some _ => (Some (markUsed e), markUsed e :: rest)
        | None => (Some e, e :: rest)
        end
      else
        let '(r, rest') := scan ns rn rest in (r, e :: rest')
  end.

(** Modelled from the spec: [matches(namespace, resourceName?, now)] of the
    exemption store (section 4.4): expired entries are dropped at query
    time, then the first candidate is returned.  The back-end store is
    missing. *)
Definition matches (ns : string) (rn : option string) (now : Z) (s : store)
    : option Exemption * store :=
  scan ns rn (List.filter (fun e => negb (expired now e)) s).

(** Modelled from the spec: the arguments of one [matches] call, and a
    sequence of such calls threaded through the store. *)
Record query := { q_namespace : string; q_resource : option string; q_now : Z }.

Fixpoint run (qs : list query) (s : store) : list (option Exemption) * store :=
  match qs with
  | [] => ([], s)
  | q :: qs' =>
      let '(r, s1) := matches (q_namespace q) (q_resource q) (q_now q) s in
      let '(rs, s2) := run qs' s1 in
      (r :: rs, s2)
  end.

(** Whether an answer of the store is the resource-specific exemption
    [i]. *)
Definition returnsSpecific (i : string) (r : option Exemption) : bool :=
  match r with
  | Some e => String.eqb (id e) i && bool_decide (is_Some (resource_name e))
  | None => false
  end.

(** The invariant behind single use: the resource-specific exemption [i],
    if still stored, is marked used. *)
Definition spent (i : string) (s : store) : Prop :=
  forall e, In e s -> id e = i -> is_Some (resource_name e) -> used e = true.

(** *** Schedule engine (section 4.3) *)

Section Engine.
(** Modelled from the spec: the cron evaluator of section 4.2,
    [cron_matches expr instant tz], taken as given. *)
Variable cron_matches : string -> Z -> string -> bool.

(** Modelled from the spec: [start <= instant < end]. *)
Definition inWindow (s e now : Z) : bool := (s <=? now) && (now <? e).

(** Modelled from the spec: the per-schedule activation rules 1 to 4 of
    section 4.3. *)
Definition scheduleActive (now : Z) (sc : Schedule) : bool :=
  match start sc, end_ sc, cron sc with
  | Some s, Some e, None => inWindow s e now
  | None, None, Some c => cron_matches c now (timezone sc)
  | Some s, Some e, Some c => inWindow s e now && cron_matches c now (timezone sc)
  | _, _, _ => false
  end.

(** Modelled from the spec: a schedule applies to a namespace it lists,
    or to all when it lists none. *)
Definition appliesTo (ns : string) (sc : Schedule) : bool :=
  match namespaces sc with
  | [] => true
  | l => existsb (String.eqb ns) l
  end.

(** Modelled from the spec: the manual override of section 4.3, reported as
    the synthetic schedule [manual]; it clears itself once [freeze_until]
    is in the past. *)
Definition manualOverride (cfg : Config) (now : Z) : list Schedule :=
  if freeze_enabled cfg then
    match freeze_until cfg with
    | Some u =>
        if u <? now then []
        else [{| name := "manual"; message := Some (freeze_message cfg);
                 namespaces := []; start := None; end_ := Some u;
                 cron := None; timezone := "UTC" |}]
    | None =>
        [{| name := "manual"; message := Some (freeze_message cfg);
            namespaces := []; start := None; end_ := None;
            cron := None; timezone := "UTC" |}]
    end
  else [].

(** Modelled from the spec: [isActive(instant, namespace)] of section 4.3;
    the schedule list is kept in name order. *)
Definition isActive (cfg : Config) (schedules : list Schedule) (now : Z)
    (ns : string) : bool * list Schedule :=
  let found :=
    manualOverride cfg now
    ++ List.filter (fun sc => scheduleActive now sc && appliesTo ns sc) schedules in
  (match found with [] => false | _ => true end, found).

(** *** Policy evaluator (section 4.7) *)

(** Modelled from the spec: ASCII lower case, for the case-insensitive
    reading of the annotation value. *)
Definition lowerChar (c : Ascii.ascii) : Ascii.ascii :=
  let n := Ascii.nat_of_ascii c in
  if ((65 <=? n) && (n <=? 90))%nat then Ascii.ascii_of_nat (n + 32) else c.

Fixpoint lower (s : string) : string :=
  match s with
  | EmptyString => EmptyString
  | String c s' => String (lowerChar c) (lower s')
  end.

(** Modelled from the spec: the companion annotation of section 6. *)
Definition bypass_reason_key : string := "admission-controller.io/emergency-reason".

(** Modelled from the spec: the conditions of steps 1 to 5 of section 4.7,
    each read off the request and the configuration alone. *)
Definition kindFilter (cfg : Config) (R : AdmissionRequest) : bool :=
  negb (bool_decide (kind R ∈ monitored_kinds cfg)).

Definition operationFilter (R : AdmissionRequest) : bool :=
  match operation R with
  | CREATE | UPDATE => false
  | DELETE | CONNECT => true
  end.

Definition annotationBypass (cfg : Config) (R : AdmissionRequest) : bool :=
  match annotations R !! bypass_annotation_key cfg with
  | Some v => String.eqb (lower v) "true"
  | None => false
  end.

Definition userAllowlist (cfg : Config) (R : AdmissionRequest) : bool :=
  bool_decide (user R ∈ bypass_allowed_users cfg)
  || existsb (fun g => bool_decide (g ∈ bypass_allowed_users cfg)) (groups R).

Definition namespaceExemption (cfg : Config) (R : AdmissionRequest) : bool :=
  bool_decide (req_namespace R ∈ bypass_exempt_namespaces cfg).

(** Modelled from the spec: the messages of the matching schedules,
    concatenated in name order. *)
Definition frozenMessage (found : list Schedule) : string :=
  String.concat "" (List.map (fun sc => default "" (message sc)) found).

(** Modelled from the spec: the evaluator algorithm of section 4.7, steps 1
    to 8 in order, each terminal when it fires.  The exemption store is
    [None] when unavailable; that is the internal error of step 6, settled
    by [fail_closed].  The result is the decision and the store after the
    call.  The back-end evaluator is missing. *)
Definition evaluate (cfg : Config) (schedules : list Schedule)
    (exemptions : option store) (now : Z) (R : AdmissionRequest)
    : Decision * option store :=
  if kindFilter cfg R then
    ({| allow := true; decision_reason := ""; category := NOT_MONITORED |},
     exemptions)
  else if operationFilter R then
    ({| allow := true; decision_reason := ""; category := NOT_MONITORED |},
     exemptions)
  else if annotationBypass cfg R then
    ({| allow := true;
        decision_reason := default "" (annotations R !! bypass_reason_key);
        category := BYPASS_ANNOTATION |}, exemptions)
  else if userAllowlist cfg R then
    ({| allow := true; decision_reason := ""; category := BYPASS_USER |},
     exemptions)
  else if namespaceExemption cfg R then
    ({| allow := true; decision_reason := ""; category := BYPASS_NAMESPACE |},
     exemptions)
  else
    match exemptions with
    | None =>
        ({| allow := negb (fail_closed cfg); decision_reason := "";
            category := INTERNAL_ERROR |}, None)
    | Some s =>
        match matches (req_namespace R) (resourceName R) now s with
        | (Some e, s') =>
            ({| allow := true; decision_reason := reason e;
                category := BYPASS_EXEMPTION |}, Some s')
        | (None, s') =>
            match isActive cfg schedules now (req_namespace R) with
            | (true, found) =>
                ({| allow := false; decision_reason := frozenMessage found;
                    category := FROZEN |}, Some s')
            | (false, _) =>
                ({| allow := true; decision_reason := "";
                    category := NO_FREEZE |}, Some s')
            end
        end
    end.

(** Modelled from the spec: the eight steps of section 4.7, in the order
    of the contract. *)
Inductive Step :=
| KindFilter
| OperationFilter
| AnnotationBypass
| UserAllowlist
| NamespaceExemption
| TemporaryExemption
| ActiveFreeze
| Default.

Definition steps : list Step :=
  [KindFilter; OperationFilter; AnnotationBypass; UserAllowlist;
   NamespaceExemption; TemporaryExemption; ActiveFreeze; Default].

(** Modelled from the spec: whether a step, taken on its own, fires for
    the request in the given state (the exemption store available). *)
Definition fires (cfg : Config) (schedules : list Schedule) (s : store)
    (now : Z) (R : AdmissionRequest) (k : Step) : bool :=
  match k with
  | KindFilter => kindFilter cfg R
  | OperationFilter => operationFilter R
  | AnnotationBypass => annotationBypass cfg R
  | UserAllowlist => userAllowlist cfg R
  | NamespaceExemption => namespaceExemption cfg R
  | TemporaryExemption =>
      bool_decide (is_Some (matches (req_namespace R) (resourceName R) now s).1)
  | ActiveFreeze => (isActive cfg schedules now (req_namespace R)).1
  | Default => true
  end.

(** Modelled from the spec: the verdict and category a step gives when it
    is the one that fires. *)
Definition verdict (k : Step) : bool * Category :=
  match k with
  | KindFilter => (true, NOT_MONITORED)
  | OperationFilter => (true, NOT_MONITORED)
  | AnnotationBypass => (true, BYPASS_ANNOTATION)
  | UserAllowlist => (true, BYPASS_USER)
  | NamespaceExemption => (true, BYPASS_NAMESPACE)
  | TemporaryExemption => (true, BYPASS_EXEMPTION)
  | ActiveFreeze => (false, FROZEN)
  | Default => (true, NO_FREEZE)
  end.

(** Modelled from the spec: the store as steps 7 and 8 find it, after the
    query of step 6 has dropped the expired entries. *)
Definition afterQuery (exemptions : option store) (now : Z) (R : AdmissionRequest)
    : option store :=
  match exemptions with
  | Some s => Some (matches (req_namespace R) (resourceName R) now s).2
  | None => None
  end.

(** Modelled from the spec: one step of section 4.7 run on its own, in any
    state of the store: [None] when the step does not fire, otherwise its
    terminal decision (allow, reason, category) and the store it leaves.
    Steps 1 to 5 do not touch the store.  Step 6 on an unavailable store
    throws, which is terminal too: the internal error, settled by
    [fail_closed]. *)
Definition stepResult (cfg : Config) (schedules : list Schedule)
    (exemptions : option store) (now : Z) (R : AdmissionRequest) (k : Step)
    : option (Decision * option store) :=
  match k with
  | KindFilter =>
      if kindFilter cfg R then
        Some ({| allow := true; decision_reason := "";
                 category := NOT_MONITORED |}, exemptions)
      else None
  | OperationFilter =>
      if operationFilter R then
        Some ({| allow := true; decision_reason := "";
                 category := NOT_MONITORED |}, exemptions)
      else None
  | AnnotationBypass =>
      if annotationBypass cfg R then
        Some ({| allow := true;
                 decision_reason := default "" (annotations R !! bypass_reason_key);
                 category := BYPASS_ANNOTATION |}, exemptions)
      else None
  | UserAllowlist =>
      if userAllowlist cfg R then
        Some ({| allow := true; decision_reason := "";
                 category := BYPASS_USER |}, exemptions)
      else None
  | NamespaceExemption =>
      if namespaceExemption cfg R then
        Some ({| allow := true; decision_reason := "";
                 category := BYPASS_NAMESPACE |}, exemptions)
      else None
  | TemporaryExemption =>
      match exemptions with
      | None =>
          Some ({| allow := negb (fail_closed cfg); decision_reason := "";
                   category := INTERNAL_ERROR |}, None)
      | Some s =>
          match matches (req_namespace R) (resourceName R) now s with
          | (Some e, s') =>
              Some ({| allow := true; decision_reason := reason e;
                       category := BYPASS_EXEMPTION |}, Some s')
          | (None, _) => None
          end
      end
  | ActiveFreeze =>
      match isActive cfg schedules now (req_namespace R) with
      | (true, found) =>
          Some ({| allow := false; decision_reason := frozenMessage found;
                   category := FROZEN |}, afterQuery exemptions now R)
      | (false, _) => None
      end
  | Default =>
      Some ({| allow := true; decision_reason := "";
               category := NO_FREEZE |}, afterQuery exemptions now R)
  end.

(** The first of a list of step results that is a result. *)
Fixpoint firstResult {A : Type} (results : list (option A)) : option A :=
  match results with
  | [] => None
  | Some a :: _ => Some a
  | None :: rest => firstResult rest
  end.

End Engine.

End Core.

(* ===================================================================== *)
(** ** Sample hosts and inputs *)
(* ===================================================================== *)

(** Concrete servers and form contents on which the handlers are run. *)
Module Samples.
Import JS Api.

(** A server that rejects the key: every call is answered 401. *)
Definition unauthorizedReply (_ : HttpRequest) : fetchResult :=
  Responded {| status := 401; statusText := lit "Unauthorized"; body := None |}.

(** A server that is down: every call is answered 503. *)
Definition unavailableReply (_ : HttpRequest) : fetchResult :=
  Responded {| status := 503; statusText := lit "Service Unavailable";
               body := None |}.

(** A server that accepts: every call is answered 200 with an envelope
    around [data]. *)
Definition okReply (data : value) (_ : HttpRequest) : fetchResult :=
  Responded {| status := 200; statusText := lit "OK";
               body := Some (VObj [("success"%string, VBool true);
                                   ("data"%string, data)]) |}.

(** A filled exemption form: one resource of [prod], for an hour. *)
Definition hotfixForm : CreateExemptionModal.form :=
  {| CreateExemptionModal.namespace := lit " prod ";
     CreateExemptionModal.resourceName := lit "web";
     CreateExemptionModal.durationMinutes := 60;
     CreateExemptionModal.reason := lit "CVE patch";
     CreateExemptionModal.approvedBy := lit "alice" |}.

(** The same form with the reason and the approver left empty. *)
Definition noReasonForm : CreateExemptionModal.form :=
  {| CreateExemptionModal.namespace := lit "prod";
     CreateExemptionModal.resourceName := lit "web";
     CreateExemptionModal.durationMinutes := 60;
     CreateExemptionModal.reason := [];
     CreateExemptionModal.approvedBy := [] |}.

(** A session of edits that types a negative duration. *)
Definition negativeDurationEdits : list CreateExemptionModal.change :=
  [CreateExemptionModal.ChangeNamespace (lit "prod");
   CreateExemptionModal.ChangeDurationMinutes (lit "0");
   CreateExemptionModal.ChangeReason (lit "CVE patch");
   CreateExemptionModal.ChangeApprovedBy (lit "alice");
   CreateExemptionModal.ChangeDurationMinutes (lit "-5")].

(** The holiday freeze: a window with a nightly cron. *)
Definition holidayForm : ApplyTemplateModal.form :=
  {| ApplyTemplateModal.scheduleName := lit "holiday";
     ApplyTemplateModal.startDate := lit "2025-12-24";
     ApplyTemplateModal.startTime := lit "00:00";
     ApplyTemplateModal.endDate := lit "2025-12-26";
     ApplyTemplateModal.endTime := lit "23:59";
     ApplyTemplateModal.cron := lit "0 22 * * *";
     ApplyTemplateModal.namespaces := [];
     ApplyTemplateModal.message := [] |}.

(** The same window with the cron input left empty. *)
Definition windowOnlyForm : ApplyTemplateModal.form :=
  {| ApplyTemplateModal.scheduleName := lit "holiday";
     ApplyTemplateModal.startDate := lit "2025-12-24";
     ApplyTemplateModal.startTime := lit "00:00";
     ApplyTemplateModal.endDate := lit "2025-12-26";
     ApplyTemplateModal.endTime := lit "23:59";
     ApplyTemplateModal.cron := [];
     ApplyTemplateModal.namespaces := [];
     ApplyTemplateModal.message := [] |}.

(** A cron with no dates; the time inputs keep their defaults. *)
Definition cronOnlyForm : ApplyTemplateModal.form :=
  {| ApplyTemplateModal.scheduleName := lit "nightly";
     ApplyTemplateModal.startDate := [];
     ApplyTemplateModal.startTime := lit "00:00";
     ApplyTemplateModal.endDate := [];
     ApplyTemplateModal.endTime := lit "23:59";
     ApplyTemplateModal.cron := lit "0 22 * * *";
     ApplyTemplateModal.namespaces := [];
     ApplyTemplateModal.message := [] |}.

(** The holiday window entered backwards. *)
Definition reversedForm : ApplyTemplateModal.form :=
  {| ApplyTemplateModal.scheduleName := lit "holiday";
     ApplyTemplateModal.startDate := lit "2025-12-26";
     ApplyTemplateModal.startTime := lit "00:00";
     ApplyTemplateModal.endDate := lit "2025-12-24";
     ApplyTemplateModal.endTime := lit "23:59";
     ApplyTemplateModal.cron := lit "0 22 * * *";
     ApplyTemplateModal.namespaces := [];
     ApplyTemplateModal.message := [] |}.

(** Scenario 5 of the design document: one exemption for [web] in [prod],
    created at [T0 = 0] for an hour, and the same request made twice. *)
Definition webExemption : Core.Exemption :=
  {| Core.id := "ex-1"; Core.namespace := "prod";
     Core.resource_name := Some "web"%string; Core.duration_minutes := 60;
     Core.reason := "CVE patch"; Core.approved_by := "alice";
     Core.created_at := 0; Core.expires_at := 60 * Core.minute;
     Core.used := false |}.

Definition webQueries : list Core.query :=
  [{| Core.q_namespace := "prod"; Core.q_resource := Some "web"%string;
      Core.q_now := 10 * Core.minute |};
   {| Core.q_namespace := "prod"; Core.q_resource := Some "web"%string;
      Core.q_now := 11 * Core.minute |}].

(** Scenarios 1 and 2 of the design document: the holiday window, no
    manual freeze, a Deployment in [prod] on 2025-12-25T10:00:00Z. *)
Definition holidayConfig : Core.Config :=
  {| Core.freeze_enabled := false; Core.freeze_until := None;
     Core.freeze_message := "Deployment freeze is active";
     Core.bypass_annotation_key := "admission-controller.io/emergency-bypass";
     Core.bypass_allowed_users := ∅;
     Core.bypass_exempt_namespaces := ∅;
     Core.monitored_kinds := {[ "Deployment"%string ]};
     Core.fail_closed := true |}.

Definition holidaySchedule : Core.Schedule :=
  {| Core.name := "holiday"; Core.message := Some "holiday freeze"%string;
     Core.namespaces := [];
     Core.start := Some 1766534400000; Core.end_ := Some 1766707200000;
     Core.cron := None; Core.timezone := "UTC" |}.

Definition christmasMorning : Z := 1766656800000.

Definition plainRequest : Core.AdmissionRequest :=
  {| Core.kind := "Deployment"; Core.req_namespace := "prod";
     Core.resourceName := Some "web"%string; Core.user := "alice";
     Core.groups := []; Core.annotations := ∅; Core.operation := Core.UPDATE |}.

Definition bypassRequest : Core.AdmissionRequest :=
  {| Core.kind := "Deployment"; Core.req_namespace := "prod";
     Core.resourceName := Some "web"%string; Core.user := "alice";
     Core.groups := [];
     Core.annotations :=
       {[ "admission-controller.io/emergency-bypass"%string := "True"%string ]};
     Core.operation := Core.UPDATE |}.

(** Scenario 4 with the exemption store down: the on-call account is on
    the allowlist. *)
Definition oncallConfig : Core.Config :=
  {| Core.freeze_enabled := true; Core.freeze_until := None;
     Core.freeze_message := "Deployment freeze is active";
     Core.bypass_annotation_key := "admission-controller.io/emergency-bypass";
     Core.bypass_allowed_users := {[ "system:serviceaccount:ops:oncall"%string ]};
     Core.bypass_exempt_namespaces := ∅;
     Core.monitored_kinds := {[ "Deployment"%string ]};
     Core.fail_closed := true |}.

Definition oncallRequest : Core.AdmissionRequest :=
  {| Core.kind := "Deployment"; Core.req_namespace := "prod";
     Core.resourceName := Some "web"%string;
     Core.user := "system:serviceaccount:ops:oncall";
     Core.groups := []; Core.annotations := ∅; Core.operation := Core.UPDATE |}.

(** A cron evaluator that never matches; the scenarios above have no cron. *)
Definition noCron (_ : string) (_ : Z) (_ : string) : bool := false.

End Samples.

(* ===================================================================== *)
(** ** More of the JavaScript library *)
(* ===================================================================== *)

Module JSText.
Import JS.

Definition isDigit (c : N) : bool := ((48 <=? c) && (c <=? 57))%N.

(** The decimal digits of [n >= 0], most significant first, put before
    [acc]; [fuel] bounds the number of digits. *)
Fixpoint decimal (fuel : nat) (n : Z) (acc : jsstring) : jsstring :=
  match fuel with
  | O => acc
  | S fuel' =>
      let acc' := Z.to_N (48 + n mod 10) :: acc in
      if n <? 10 then acc' else decimal fuel' (n / 10) acc'
  end.

(** [Number.MAX_SAFE_INTEGER], 2^53 - 1: up to it, in absolute value, an
    integer is held exactly and printed with all its digits. *)
Definition maxSafeInteger : Z := 9007199254740991.

(** [Number.prototype.toString()] on a safe integer.  Beyond
    [maxSafeInteger] the language prints the shortest digits that round
    trip, and from 10^21 on the exponent form; this function then still
    prints every digit, so it is the host's only within the safe range. *)
Definition numberToString (n : Z) : jsstring :=
  if n <? 0 then 45%N :: decimal (S (Z.to_nat (Z.log2 (- n)))) (- n) []
  else decimal (S (Z.to_nat (Z.log2 n))) n [].

(** The value of a run of digits read after [a]. *)
Definition valueOf (ds : jsstring) (a : Z) : Z :=
  fold_left (fun a c => 10 * a + (Z.of_N c - 48)) ds a.

(** [Array.prototype.includes] on an array of strings. *)
Definition includes (l : list jsstring) (x : jsstring) : bool :=
  existsb (fun y => bool_decide (y = x)) l.

(** [s.slice(a, b)] for [0 <= a <= b]. *)
Definition slice (a b : nat) (s : jsstring) : jsstring :=
  firstn (b - a) (skipn a s).

(** [s.split(c)[0]]: the part before the first [c]. *)
Fixpoint beforeFirst (c : N) (s : jsstring) : jsstring :=
  match s with
  | [] => []
  | x :: s' => if (x =? c)%N then [] else x :: beforeFirst c s'
  end.

(** The two regular expressions of the page are sequences of [\d] and
    literal characters. *)
Inductive atom := Digit | Char (c : N).

Definition atomMatches (a : atom) (c : N) : bool :=
  match a with
  | Digit => isDigit c
  | Char c' => (c =? c')%N
  end.

(** The pattern matches at the start of the string. *)
Fixpoint matchesAt (p : list atom) (s : jsstring) : bool :=
  match p, s with
  | [], _ => true
  | a :: p', c :: s' => atomMatches a c && matchesAt p' s'
  | _ :: _, [] => false
  end.

(** The index of the leftmost match of an unanchored pattern. *)
Fixpoint search (p : list atom) (s : jsstring) : option nat :=
  if matchesAt p s then Some O
  else match s with
       | [] => None
       | _ :: s' => S <$> search p s'
       end.

End JSText.

(* ===================================================================== *)
(** ** services/api.ts: the remaining calls *)
(* ===================================================================== *)

Module ApiCalls.
Import JS Api JSText.

Section WithFetch.
Variable fetch : HttpRequest -> fetchResult.

Definition getFreezeStatus (st : state) : result value * state :=
  request fetch (lit "/freeze/status") GET None st.

(** The three list calls share the unwrapping of [getExemptions]. *)
Definition getList (endpoint : jsstring) (st : state) : result value * state :=
  match request fetch endpoint GET None st with
  | (Return response, st') => (unwrapList response, st')
  | (Throw t, st') => (Throw t, st')
  end.

Definition getTemplates (st : state) : result value * state :=
  getList (lit "/freeze/templates") st.

Definition getSchedules (st : state) : result value * state :=
  getList (lit "/freeze/schedules") st.

Definition getExemption (id : jsstring) (st : state) : result value * state :=
  request fetch (lit "/freeze/exemptions/" ++ id) GET None st.

Definition deleteExemption (id : jsstring) (st : state) : result value * state :=
  request fetch (lit "/freeze/exemptions/" ++ id) DELETE None st.

(** The host's serializer of one URLSearchParams value
    (application/x-www-form-urlencoded). *)
Variable formEncode : jsstring -> jsstring.

(** [params.toString()]: the appended pairs, [name=value] joined by [&].
    The three names are plain letters and underscores, which the
    serializer leaves as they are. *)
Fixpoint serialize (params : list (jsstring * jsstring)) : jsstring :=
  match params with
  | [] => []
  | [(k, v)] => k ++ lit "=" ++ formEncode v
  | (k, v) :: rest => k ++ lit "=" ++ formEncode v ++ lit "&" ++ serialize rest
  end.

(** The three [if (x) params.append(...)]: [None] is an argument left out;
    zero and the empty string are falsy too.  [limit] is an integer. *)
Definition historyParams (limit : option Z) (eventType namespace : option jsstring)
    : list (jsstring * jsstring) :=
  match limit with
  | Some n => if n =? 0 then [] else [(lit "limit", numberToString n)]
  | None => []
  end
  ++ match eventType with
     | Some (c :: s) => [(lit "event_type", c :: s)]
     | _ => []
     end
  ++ match namespace with
     | Some (c :: s) => [(lit "namespace", c :: s)]
     | _ => []
     end.

(** `/freeze/history${query ? `?${query}` : ''}` *)
Definition historyEndpoint (limit : option Z) (eventType namespace : option jsstring)
    : jsstring :=
  let query := serialize (historyParams limit eventType namespace) in
  lit "/freeze/history" ++ (if nonEmpty query then lit "?" ++ query else []).

Definition getHistory (limit : option Z) (eventType namespace : option jsstring)
    (st : state) : result value * state :=
  getList (historyEndpoint limit eventType namespace) st.

End WithFetch.

End ApiCalls.

(* ===================================================================== *)
(** ** pages/Login.tsx *)
(* ===================================================================== *)

Module LoginPage.
Import JS Api.

(** [LoggedIn] is [onLogin(); navigate('/dashboard')], [ShowError m] is
    [setError(m)]. *)
Inductive outcome :=
| LoggedIn
| ShowError (m : message).

(** [login] is an async function that catches every failure of the probe,
    so the [catch] of the handler has nothing to catch. *)
Definition handleSubmit (fetch : HttpRequest -> fetchResult)
    (apiKey : jsstring) (st : state) : outcome * state :=
  let trimmedKey := trim apiKey in
  let '(success, st') := Auth.login fetch trimmedKey st in
  if success then (LoggedIn, st')
  else (ShowError (Text "Invalid API key. Please check your key and try again."), st').

End LoginPage.

(* ===================================================================== *)
(** ** App.tsx: the route table *)
(* ===================================================================== *)

Module App.

(** The eight [<Route>] entries, by the path each one declares. *)
Inductive route :=
| LoginPath        (* /login *)
| RootPath         (* / *)
| DashboardPath    (* /dashboard *)
| TemplatesPath    (* /templates *)
| SchedulesPath    (* /schedules *)
| ExemptionsPath   (* /exemptions *)
| HistoryPath      (* /history *)
| AnyOtherPath.    (* * *)

Inductive page := Dashboard | Templates | Schedules | Exemptions | History.

Inductive element :=
| LoginForm
| Page (p : page)             (* the page inside <Layout> *)
| Navigate (to : route).      (* <Navigate to=... replace /> *)

Definition protected (isAuthenticated : bool) (p : page) : element :=
  if isAuthenticated then Page p else Navigate LoginPath.

(** The [element] of each route under the [isAuthenticated] state. *)
Definition elementOf (isAuthenticated : bool) (r : route) : element :=
  match r with
  | LoginPath => LoginForm
  | RootPath => protected isAuthenticated Dashboard
  | DashboardPath => protected isAuthenticated Dashboard
  | TemplatesPath => protected isAuthenticated Templates
  | SchedulesPath => protected isAuthenticated Schedules
  | ExemptionsPath => protected isAuthenticated Exemptions
  | HistoryPath => protected isAuthenticated History
  | AnyOtherPath => Navigate DashboardPath
  end.

(** What is on screen after following at most [fuel] redirects. *)
Fixpoint settle (fuel : nat) (isAuthenticated : bool) (r : route) : option element :=
  match elementOf isAuthenticated r with
  | Navigate to =>
      match fuel with
      | O => None
      | S fuel' => settle fuel' isAuthenticated to
      end
  | shown => Some shown
  end.

End App.

(* ===================================================================== *)
(** ** pages/Templates.tsx: the namespace chips and the date fields *)
(* ===================================================================== *)

Module NamespaceList.
Import JS JSText.

(** The two cells the handlers touch. *)
Record cells := {
  namespaces : list jsstring;
  namespaceInput : jsstring
}.

Definition handleAddNamespace (c : cells) : cells :=
  if nonEmpty (trim (namespaceInput c))
     && negb (includes (namespaces c) (trim (namespaceInput c)))
  then {| namespaces := namespaces c ++ [trim (namespaceInput c)];
          namespaceInput := [] |}
  else c.

Definition handleRemoveNamespace (ns : jsstring) (c : cells) : cells :=
  {| namespaces := List.filter (fun n => negb (bool_decide (n = ns))) (namespaces c);
     namespaceInput := namespaceInput c |}.

(** What the user can do to the chips: type in the input, press Add (or
    Enter), click the cross of a chip. *)
Inductive action :=
| TypeInput (v : jsstring)
| PressAdd
| ClickRemove (ns : jsstring).

Definition act (c : cells) (a : action) : cells :=
  match a with
  | TypeInput v => {| namespaces := namespaces c; namespaceInput := v |}
  | PressAdd => handleAddNamespace c
  | ClickRemove ns => handleRemoveNamespace ns c
  end.

(** The cells after a session that starts from the template's list. *)
Definition session (fromTemplate : list jsstring) (acts : list action) : cells :=
  fold_left act acts {| namespaces := fromTemplate; namespaceInput := [] |}.

End NamespaceList.

Module TemplateDates.
Import JS JSText.

Record parsed := { date : jsstring; time : jsstring }.

(** /^(\d{4})-\d{2}-\d{2}T(\d{2}:\d{2}):\d{2}/ *)
Definition isoPattern : list atom :=
  [Digit; Digit; Digit; Digit; Char 45; Digit; Digit; Char 45; Digit; Digit;
   Char 84; Digit; Digit; Char 58; Digit; Digit; Char 58; Digit; Digit].

(** /\d{4}-(\d{2}-\d{2})T/ *)
Definition monthDayPattern : list atom :=
  [Digit; Digit; Digit; Digit; Char 45; Digit; Digit; Char 45; Digit; Digit;
   Char 84].

Section WithDate.
(** The host's Date: the constructor on a string, [toISOString] and
    [toTimeString] on a valid time value. *)
Variable newDate : jsstring -> Date.
Variable toISOString : Z -> jsstring.
Variable toTimeString : Z -> jsstring.

(** [parseDateString]; [None] is [undefined]. *)
Definition parseDateString (dateStr : option jsstring) : parsed :=
  match dateStr with
  | None | Some [] => {| date := []; time := lit "00:00" |}
  | Some s =>
      match newDate s with
      | Some t =>
          {| date := beforeFirst 84 (toISOString t);
             time := slice 0 5 (toTimeString t) |}
      | None =>
          if matchesAt isoPattern s then
            {| date :=
                 slice 0 4 s ++ lit "-"
                 ++ match search monthDayPattern s with
                    | Some i =>
                        if nonEmpty (slice (i + 5) (i + 10) s)
                        then slice (i + 5) (i + 10) s else lit "01-01"
                    | None => lit "01-01"
                    end;
               time := slice 11 16 s |}
          else {| date := []; time := lit "00:00" |}
      end
  end.

End WithDate.

End TemplateDates.

Module TemplatesPage.
Import JS.



End TemplatesPage.

(* ===================================================================== *)
(** ** helm/kube-freezer/templates/_helpers.tpl *)
(* ===================================================================== *)

(** The named templates of the chart.  A Go string is its list of bytes;
    an unset value and the empty string are both the empty list, which is
    how [default] and [if] see them. *)
Module Helm.

Definition gostring := list Ascii.ascii.

Definition str (s : string) : gostring := String.list_ascii_of_string s.

(** [default d given]: [given] unless it is empty. *)
Definition default (d given : gostring) : gostring :=
  match given with
  | [] => d
  | _ :: _ => given
  end.

(** [trunc c]: the first [c] bytes. *)
Definition trunc (c : nat) (s : gostring) : gostring := firstn c s.

Fixpoint hasPrefix (p s : gostring) : bool :=
  match p, s with
  | [], _ => true
  | a :: p', b :: s' => Ascii.eqb a b && hasPrefix p' s'
  | _ :: _, [] => false
  end.

Definition hasSuffix (suffix s : gostring) : bool :=
  hasPrefix (rev suffix) (rev s).

(** [trimSuffix suffix]: one trailing [suffix] is removed, if there is one. *)
Definition trimSuffix (suffix s : gostring) : gostring :=
  if hasSuffix suffix s then firstn (length s - length suffix) s else s.

(** [contains substr s] *)
Fixpoint contains (substr s : gostring) : bool :=
  hasPrefix substr s
  || match s with
     | [] => false
     | _ :: s' => contains substr s'
     end.

(** [replace old new] for a one-byte [old]. *)
Definition replace (old : Ascii.ascii) (new : gostring) (s : gostring) : gostring :=
  flat_map (fun c => if Ascii.eqb c old then new else [c]) s.

(** [printf "%s-%s" a b] *)
Definition dashed (a b : gostring) : gostring := a ++ str "-" ++ b.

Record Chart := { Chart_Name : gostring; Chart_Version : gostring }.

Record Values := {
  nameOverride : gostring;
  fullnameOverride : gostring;
  serviceAccount_create : bool;
  serviceAccount_name : gostring;
  Values_namespace : gostring
}.

Record Release := { Release_Name : gostring }.

(** kube-freezer.name *)
Definition name (c : Chart) (v : Values) : gostring :=
  trimSuffix (str "-") (trunc 63 (default (Chart_Name c) (nameOverride v))).

(** kube-freezer.fullname *)
Definition fullname (c : Chart) (v : Values) (r : Release) : gostring :=
  match fullnameOverride v with
  | _ :: _ => trimSuffix (str "-") (trunc 63 (fullnameOverride v))
  | [] =>
      let name := default (Chart_Name c) (nameOverride v) in
      if contains name (Release_Name r) then
        trimSuffix (str "-") (trunc 63 (Release_Name r))
      else
        trimSuffix (str "-") (trunc 63 (dashed (Release_Name r) name))
  end.

(** The byte [+]. *)
Definition plus : Ascii.ascii := Ascii.ascii_of_nat 43.

(** kube-freezer.chart *)
Definition chart (c : Chart) : gostring :=
  trimSuffix (str "-")
    (trunc 63 (replace plus (str "_") (dashed (Chart_Name c) (Chart_Version c)))).

(** kube-freezer.serviceAccountName *)
Definition serviceAccountName (c : Chart) (v : Values) (r : Release) : gostring :=
  if serviceAccount_create v then default (fullname c v r) (serviceAccount_name v)
  else default (str "default") (serviceAccount_name v).

(** kube-freezer.namespace *)
Definition namespace (c : Chart) (v : Values) : gostring :=
  default (name c v) (Values_namespace v).

End Helm.

(* ===================================================================== *)
(** ** More sample inputs *)
(* ===================================================================== *)

Module MoreSamples.
Import JS Api.

(** A server that cannot be reached: [fetch] rejects with a TypeError. *)
Definition unreachable (_ : HttpRequest) : fetchResult :=
  Rejected (Error Engine).

(** A server that answers 401 to anonymous calls and 200 otherwise. *)
Definition keyedReply (data : value) (req : HttpRequest) : fetchResult :=
  match authorization req with
  | Some _ => Samples.okReply data req
  | None => Samples.unauthorizedReply req
  end.

(** An identity serializer, enough for values made of letters and digits. *)
Definition plainEncode (v : jsstring) : jsstring := v.

(** A template date the host does not parse: month 13. *)
Definition badMonth : jsstring := lit "2025-13-01T10:30:00Z".

Definition rejectAll (_ : jsstring) : Date := None.

Definition noString (_ : Z) : jsstring := [].

(** The chart installed under its own name, nothing overridden. *)
Definition kubeFreezerChart : Helm.Chart :=
  {| Helm.Chart_Name := Helm.str "kube-freezer";
     Helm.Chart_Version := Helm.str "0.5.10+build.7" |}.

Definition noOverrides : Helm.Values :=
  {| Helm.nameOverride := []; Helm.fullnameOverride := [];
     Helm.serviceAccount_create := true; Helm.serviceAccount_name := [];
     Helm.Values_namespace := [] |}.

Definition ownRelease : Helm.Release :=
  {| Helm.Release_Name := Helm.str "kube-freezer" |}.

End MoreSamples.

(* ===================================================================== *)
(** * Properties *)
(* ===================================================================== *)

(** ** Strings *)

Section TrimFacts.
Import JS.

Lemma trimStart_app_last (s : jsstring) (c : N) :
  isWhiteSpace c = false -> trimStart (s ++ [c]) = trimStart s ++ [c].
Proof.
  intros Hc. induction s as [|x s IH]; simpl.
  - now rewrite Hc.
  - destruct (isWhiteSpace x); [exact IH | reflexivity].
Qed.

Lemma trimEnd_cons (c : N) (s : jsstring) :
  isWhiteSpace c = false -> trimEnd (c :: s) = c :: trimEnd s.
Proof.
  intros Hc. unfold trimEnd. simpl rev.
  rewrite trimStart_app_last by exact Hc.
  now rewrite rev_app_distr.
Qed.

Lemma trimStart_head (s : jsstring) :
  trimStart s = [] \/ exists c t, trimStart s = c :: t /\ isWhiteSpace c = false.
Proof.
  induction s as [|x s IH]; simpl; [now left|].
  destruct (isWhiteSpace x) eqn:E; [exact IH | right; eauto].
Qed.

Lemma trimStart_idem (s : jsstring) : trimStart (trimStart s) = trimStart s.
Proof.
  destruct (trimStart_head s) as [-> | (c & t & -> & Hc)]; simpl; [reflexivity|].
  now rewrite Hc.
Qed.

Lemma trimEnd_idem (s : jsstring) : trimEnd (trimEnd s) = trimEnd s.
Proof.
  unfold trimEnd. now rewrite rev_involutive, trimStart_idem.
Qed.

(** A trimmed string is empty or starts with a character that is not
    white space, so trimming it again changes nothing. *)
Lemma trim_head (s : jsstring) :
  trim s = [] \/ exists c t, trim s = c :: t /\ isWhiteSpace c = false.
Proof.
  unfold trim.
  destruct (trimStart_head s) as [-> | (c & t & -> & Hc)]; [now left|].
  right. rewrite trimEnd_cons by exact Hc. eauto.
Qed.

Lemma trim_idem (s : jsstring) : trim (trim s) = trim s.
Proof.
  destruct (trim_head s) as [E | (c & t & E & Hc)].
  - now rewrite E.
  - unfold trim at 1. rewrite E. simpl trimStart. rewrite Hc.
    rewrite <- E. unfold trim. apply trimEnd_idem.
Qed.

End TrimFacts.

(** ** services/api.ts and services/auth.ts *)

Section ApiFacts.
Import JS Api.

Lemma isAuthenticated_clearToken (st : state) :
  isAuthenticated (clearToken st) = false.
Proof. reflexivity. Qed.

Lemma getToken_setToken (k : jsstring) (st : state) :
  getToken (setToken k st) = match trim k with [] => None | t => Some t end.
Proof.
  unfold getToken, setToken; simpl.
  destruct (trim k) as [|c t] eqn:E; [reflexivity|].
  simpl. now rewrite <- E, trim_idem.
Qed.

Lemma isAuthenticated_setToken (k : jsstring) (st : state) :
  isAuthenticated (setToken k st) = nonEmpty (trim k).
Proof.
  unfold isAuthenticated. rewrite getToken_setToken.
  now destruct (trim k).
Qed.

Lemma outgoing_setToken endpoint m payload (k : jsstring) (st st0 : state) :
  outgoing endpoint m payload (setToken k st)
  = outgoing endpoint m payload (setToken (trim k) st0).
Proof.
  unfold outgoing. rewrite !getToken_setToken, trim_idem. reflexivity.
Qed.

(** [request] leaves the state alone unless the response is a 401, in
    which case it clears the token and throws. *)
Lemma request_state (fetch : HttpRequest -> fetchResult) endpoint m payload st :
  if unauthorized (fetch (outgoing endpoint m payload st))
  then request fetch endpoint m payload st
       = (Throw (Error (Text "Authentication required")), clearToken st)
  else (request fetch endpoint m payload st).2 = st.
Proof.
  unfold request, unauthorized.
  destruct (fetch _) as [[e|]|r]; try reflexivity.
  destruct (status r =? 401); [reflexivity|].
  destruct (status r =? 403).
  { destruct (get _ _); reflexivity. }
  destruct (negb (ok r)).
  { destruct (get _ _); reflexivity. }
  destruct (body r); [|reflexivity].
  destruct (get _ _); reflexivity.
Qed.

End ApiFacts.

Section AuthFacts.
Import JS Api Auth Samples.

(** C9.  When the response to a call made through [request] has status
    401, the token is cleared, in memory and in localStorage, so that
    [isAuthenticated()] is false afterwards, and the call throws the error
    'Authentication required'.  The response body plays no part: the
    statement holds for every response with that status, whatever its body
    (even one whose [json()] would reject). *)
Theorem request_unauthorized_clears_token
    (fetch : HttpRequest -> fetchResult) endpoint m payload st r :
  fetch (outgoing endpoint m payload st) = Responded r ->
  status r = 401 ->
  request fetch endpoint m payload st
  = (Throw (Error (Text "Authentication required")), clearToken st)
  /\ token (request fetch endpoint m payload st).2 = None
  /\ localStorage_token (request fetch endpoint m payload st).2 = None
  /\ Api.isAuthenticated (request fetch endpoint m payload st).2 = false.
Proof.
  intros Hf Hs.
  pose proof (request_state fetch endpoint m payload st) as H.
  rewrite Hf in H. simpl in H. rewrite Hs in H. simpl in H.
  rewrite H. repeat split.
Qed.

Lemma request_unauthorized_clears_token_witness :
  Api.isAuthenticated (init (Some (lit "s3cret"))) = true
  /\ request unauthorizedReply (lit "/freeze/status") GET None
       (init (Some (lit "s3cret")))
     = (Throw (Error (Text "Authentication required")),
        clearToken (init (Some (lit "s3cret"))))
  /\ Api.isAuthenticated
       (request unauthorizedReply (lit "/freeze/status") GET None
          (init (Some (lit "s3cret")))).2 = false.
Proof.
  split; [reflexivity|].
  destruct (request_unauthorized_clears_token unauthorizedReply
              (lit "/freeze/status") GET None (init (Some (lit "s3cret")))
              {| status := 401; statusText := lit "Unauthorized"; body := None |}
              eq_refl eq_refl) as (H1 & _ & _ & H4).
  split; [exact H1 | exact H4].
Defined.

Lemma validateApiKey_trim (fetch : HttpRequest -> fetchResult) k st :
  validateApiKey fetch (trim k) st = validateApiKey fetch k st.
Proof. unfold validateApiKey. now rewrite trim_idem. Qed.

(** After a failed validation the state is the freshly stored key, unless
    the failure was a 401, which wipes it. *)
Lemma validateApiKey_failed (fetch : HttpRequest -> fetchResult) k st :
  (validateApiKey fetch k st).1 = false ->
  (validateApiKey fetch k st).2
  = if unauthorized (fetch (probe (trim k)))
    then clearToken st else setToken (trim k) st.
Proof.
  unfold validateApiKey, getExemptions, probe.
  rewrite (outgoing_setToken _ _ _ (trim k) (init None) st), trim_idem.
  set (st1 := setToken (trim k) st).
  pose proof (request_state fetch (lit "/freeze/exemptions") GET None st1) as H.
  destruct (unauthorized _).
  - rewrite H. reflexivity.
  - destruct (request _ _ _ _ _) as [[response|t] st2]; simpl in *; subst st2.
    + destruct (unwrapList response); simpl; [discriminate | reflexivity].
    + reflexivity.
Qed.

(** C8, as the code has it.  When the validation request for [k] fails,
    [login k] returns false.  If the failure is a 401 response the token
    has been cleared and [isAuthenticated()] is false.  Otherwise the
    trimmed key stays stored as the current token, and
    [isAuthenticated()] is true exactly when the trimmed key is not
    empty. *)
Theorem login_failed_token_state
    (fetch : HttpRequest -> fetchResult) (k : jsstring) (st : state) :
  (validateApiKey fetch k st).1 = false ->
  (login fetch k st).1 = false
  /\ if unauthorized (fetch (probe (trim k)))
     then token (login fetch k st).2 = None
          /\ localStorage_token (login fetch k st).2 = None
          /\ Auth.isAuthenticated (login fetch k st).2 = false
     else token (login fetch k st).2 = Some (trim k)
          /\ localStorage_token (login fetch k st).2 = Some (trim k)
          /\ Auth.isAuthenticated (login fetch k st).2 = nonEmpty (trim k).
Proof.
  intros Hfail.
  pose proof (validateApiKey_failed fetch k st Hfail) as Hst.
  unfold login. rewrite validateApiKey_trim.
  destruct (validateApiKey fetch k st) as [isValid st1]; simpl in *.
  subst isValid st1. simpl. split; [reflexivity|].
  destruct (unauthorized _).
  - repeat split.
  - unfold Auth.isAuthenticated. rewrite isAuthenticated_setToken.
    simpl. now rewrite !trim_idem.
Qed.

Lemma login_failed_token_state_witness :
  (login unavailableReply (lit " s3cret ") (init None)).1 = false
  /\ token (login unavailableReply (lit " s3cret ") (init None)).2
     = Some (lit "s3cret")
  /\ Auth.isAuthenticated
       (login unavailableReply (lit " s3cret ") (init None)).2 = true.
Proof.
  pose proof (login_failed_token_state unavailableReply (lit " s3cret ")
                (init None) eq_refl) as [H1 H2].
  simpl in H2. destruct H2 as (H2 & _ & H3).
  split; [exact H1|]. split; [exact H2 | exact H3].
Defined.

(** C8 as stated fails: an invalid key is answered 401; the validation
    fails, [login] returns false, and the token is gone, so
    [isAuthenticated()] is false, not true. *)
Lemma login_failed_unauthorized_counterexample :
  (validateApiKey unauthorizedReply (lit "wrong-key") (init None)).1 = false
  /\ (login unauthorizedReply (lit "wrong-key") (init None)).1 = false
  /\ token (login unauthorizedReply (lit "wrong-key") (init None)).2 = None
  /\ Auth.isAuthenticated
       (login unauthorizedReply (lit "wrong-key") (init None)).2 = false.
Proof. vm_compute. repeat split. Qed.

End AuthFacts.

(** ** pages/Exemptions.tsx: the creation form *)

Section ExemptionFormFacts.
Import JS Api CreateExemptionModal Samples.

Lemma nonEmpty_false (s : jsstring) : nonEmpty s = false <-> s = [].
Proof. destruct s; simpl; split; congruence. Qed.

Lemma nonEmpty_true (s : jsstring) : nonEmpty s = true <-> s <> [].
Proof. destruct s; simpl; split; congruence. Qed.

(** The four guards, read as one condition. *)
Lemma buildRequest_Return (f : form) (r : ExemptionCreateRequest.t) :
  buildRequest f = Return r ->
  trim (namespace f) <> [] /\ trim (reason f) <> []
  /\ trim (approvedBy f) <> [] /\ 1 <= durationMinutes f
  /\ r = {| ExemptionCreateRequest.namespace := trim (namespace f);
            ExemptionCreateRequest.duration_minutes := durationMinutes f;
            ExemptionCreateRequest.reason := trim (reason f);
            ExemptionCreateRequest.approved_by := trim (approvedBy f);
            ExemptionCreateRequest.resource_name :=
              if nonEmpty (trim (resourceName f))
              then Some (trim (resourceName f)) else None |}.
Proof.
  unfold buildRequest.
  destruct (nonEmpty (trim (namespace f))) eqn:E1; simpl; [|discriminate].
  destruct (nonEmpty (trim (reason f))) eqn:E2; simpl; [|discriminate].
  destruct (nonEmpty (trim (approvedBy f))) eqn:E3; simpl; [|discriminate].
  destruct (durationMinutes f <? 1) eqn:E4; [discriminate|].
  intros [= <-]. apply nonEmpty_true in E1, E2, E3. apply Z.ltb_ge in E4.
  repeat split; assumption.
Qed.

(** [handleSubmit] reaches the server through one call only. *)
Lemma handleSubmit_sent (fetch fetch' : HttpRequest -> fetchResult) f r st :
  buildRequest f = Return r ->
  fetch (sent r st) = fetch' (sent r st) ->
  handleSubmit fetch f st = handleSubmit fetch' f st.
Proof.
  intros Hb Hf. unfold handleSubmit, createExemption, request.
  rewrite Hb. unfold sent in Hf. now rewrite Hf.
Qed.

(** C7.  In every request the form builds, [resource_name] is present
    exactly when the entered resource name is not empty after trimming, and
    then holds the trimmed name; the JSON object that is sent has the
    property under the same condition.  An empty or white-space-only entry
    leaves the property out. *)
Theorem resource_name_included_iff_entered
    (f : form) (r : ExemptionCreateRequest.t) :
  buildRequest f = Return r ->
  (is_Some (ExemptionCreateRequest.resource_name r)
   <-> trim (resourceName f) <> [])
  /\ (forall n, ExemptionCreateRequest.resource_name r = Some n
               -> n = trim (resourceName f))
  /\ hasField "resource_name" (ExemptionCreateRequest.toJSON r)
     = nonEmpty (trim (resourceName f)).
Proof.
  intros Hb. apply buildRequest_Return in Hb as (_ & _ & _ & _ & ->).
  unfold ExemptionCreateRequest.toJSON; simpl.
  destruct (trim (resourceName f)) as [|c t]; simpl.
  - repeat split; try congruence. intros [x Hx]; discriminate.
  - repeat split; try congruence. intros _; eauto.
Qed.

Lemma resource_name_included_iff_entered_witness :
  exists r, buildRequest hotfixForm = Return r
            /\ ExemptionCreateRequest.resource_name r = Some (lit "web")
            /\ hasField "resource_name" (ExemptionCreateRequest.toJSON r) = true.
Proof.
  eexists. split; [reflexivity|].
  destruct (resource_name_included_iff_entered hotfixForm _ eq_refl)
    as (_ & _ & H).
  split; [reflexivity | exact H].
Defined.

(** C2, as the code has it.  The form refuses to create an exemption,
    without sending anything, when the namespace, the reason or the
    approver is empty after trimming or when the duration is below 1.
    Otherwise the request is built from the trimmed fields (namespace,
    reason, approver and, when entered, resource name; the duration as
    held) and sent in one call, and the creation succeeds exactly when
    that API call returns. *)
Theorem exemption_creation_outcome
    (fetch : HttpRequest -> fetchResult) (f : form) (st : state) :
  (trim (namespace f) = [] \/ trim (reason f) = []
   \/ trim (approvedBy f) = [] \/ durationMinutes f < 1 ->
   exists m, buildRequest f = Throw (Error (Text m))
             /\ handleSubmit fetch f st = (Failed (Text m), st))
  /\ (trim (namespace f) <> [] -> trim (reason f) <> [] ->
      trim (approvedBy f) <> [] -> 1 <= durationMinutes f ->
      exists r, buildRequest f = Return r
                /\ ExemptionCreateRequest.namespace r = trim (namespace f)
                /\ ExemptionCreateRequest.duration_minutes r = durationMinutes f
                /\ ExemptionCreateRequest.reason r = trim (reason f)
                /\ ExemptionCreateRequest.approved_by r = trim (approvedBy f)
                /\ ExemptionCreateRequest.resource_name r
                   = (if nonEmpty (trim (resourceName f))
                      then Some (trim (resourceName f)) else None)
                /\ (forall fetch' : HttpRequest -> fetchResult,
                      fetch' (sent r st) = fetch (sent r st) ->
                      handleSubmit fetch' f st = handleSubmit fetch f st)
                /\ ((handleSubmit fetch f st).1 = Created
                    <-> exists v,
                        (createExemption fetch (ExemptionCreateRequest.toJSON r) st).1
                        = Return v)).
Proof.
  split.
  - intros H. unfold handleSubmit, buildRequest.
    destruct (nonEmpty (trim (namespace f))) eqn:E1; simpl; [|eauto].
    destruct (nonEmpty (trim (reason f))) eqn:E2; simpl; [|eauto].
    destruct (nonEmpty (trim (approvedBy f))) eqn:E3; simpl; [|eauto].
    destruct (durationMinutes f <? 1) eqn:E4; [eauto|].
    apply nonEmpty_true in E1, E2, E3. apply Z.ltb_ge in E4.
    exfalso. destruct H as [H|[H|[H|H]]]; try contradiction. lia.
  - intros H1 H2 H3 H4.
    destruct (buildRequest f) as [r|t] eqn:Hb.
    2:{ exfalso. revert Hb. unfold buildRequest.
        apply nonEmpty_true in H1, H2, H3. rewrite H1, H2, H3. simpl.
        destruct (durationMinutes f <? 1) eqn:E4; [apply Z.ltb_lt in E4; lia|].
        discriminate. }
    exists r. split; [reflexivity|].
    pose proof (buildRequest_Return f r Hb) as (_ & _ & _ & _ & Hr).
    split; [now rewrite Hr|]. split; [now rewrite Hr|].
    split; [now rewrite Hr|]. split; [now rewrite Hr|].
    split; [now rewrite Hr|].
    split.
    + intros fetch' Hf. apply (handleSubmit_sent fetch' fetch f r st Hb Hf).
    + unfold handleSubmit. rewrite Hb.
      destruct (createExemption _ _ _) as [[v|t] st']; simpl; split;
        eauto; try discriminate. intros [v Hv]; discriminate.
Qed.

Lemma exemption_creation_outcome_witness :
  (handleSubmit (okReply VNull) hotfixForm (init (Some (lit "key")))).1 = Created
  /\ exists m, handleSubmit (okReply VNull) noReasonForm (init (Some (lit "key")))
               = (Failed (Text m), init (Some (lit "key"))).
Proof.
  pose proof (exemption_creation_outcome (okReply VNull) hotfixForm
                (init (Some (lit "key")))) as [_ Hok].
  pose proof (exemption_creation_outcome (okReply VNull) noReasonForm
                (init (Some (lit "key")))) as [Hbad _].
  split.
  - destruct Hok as (r & Hr & _ & _ & _ & _ & _ & _ & Hiff);
      [vm_compute; congruence | vm_compute; congruence
      | vm_compute; congruence | vm_compute; congruence |].
    apply Hiff. injection Hr as <-. eexists. reflexivity.
  - destruct Hbad as (m & _ & Hm); [right; left; reflexivity|].
    exists m. exact Hm.
Defined.

(** C2 as stated fails: a positive duration and a non-empty namespace do
    not make the creation succeed; with the reason left empty the form
    refuses and nothing is created, even against a server that accepts
    everything. *)
Lemma exemption_creation_counterexample :
  0 < durationMinutes noReasonForm
  /\ namespace noReasonForm <> []
  /\ buildRequest noReasonForm = Throw (Error (Text "Reason is required"))
  /\ handleSubmit (okReply VNull) noReasonForm (init (Some (lit "key")))
     = (Failed (Text "Reason is required"), init (Some (lit "key"))).
Proof. vm_compute. repeat split; congruence. Qed.

(** The duration cell holds 60 or a non-zero integer that was typed. *)
Lemma edited_duration (cs : list change) :
  durationMinutes (edited cs) = 60
  \/ exists v, In (ChangeDurationMinutes v) cs
               /\ parseInt v = Some (durationMinutes (edited cs))
               /\ durationMinutes (edited cs) <> 0.
Proof.
  unfold edited. induction cs as [|c cs IH] using rev_ind; [now left|].
  rewrite fold_left_app. simpl.
  assert (Hkeep : durationMinutes (fold_left onChange cs initial) = 60
          \/ exists v, In (ChangeDurationMinutes v) (cs ++ [c])
                       /\ parseInt v = Some (durationMinutes (fold_left onChange cs initial))
                       /\ durationMinutes (fold_left onChange cs initial) <> 0).
  { destruct IH as [IH | (v & Hin & Hp & Hnz)]; [now left|].
    right. exists v. split; [apply in_or_app; now left | now split]. }
  destruct c as [v|v|v|v|v]; simpl; try exact Hkeep.
  unfold parseIntOr. destruct (parseInt v) as [n|] eqn:E; [|now left].
  destruct (n =? 0) eqn:Ez; [now left|].
  right. exists v. split; [apply in_or_app; right; now left|].
  split; [exact E | now apply Z.eqb_neq].
Qed.

(** C10.  Whatever is typed into the form, the duration cell is never 0:
    an entry that parses to 0 or to NaN is replaced by 60.  So the guard
    'Duration must be at least 1 minute' can fire only on a negative
    integer that was typed into the duration input. *)
Theorem duration_never_zero (cs : list change) :
  durationMinutes (edited cs) <> 0
  /\ (forall v, parseInt v = None \/ parseInt v = Some 0 ->
                durationMinutes (onChange (edited cs) (ChangeDurationMinutes v)) = 60)
  /\ (buildRequest (edited cs)
      = Throw (Error (Text "Duration must be at least 1 minute")) ->
      durationMinutes (edited cs) < 0
      /\ exists v, In (ChangeDurationMinutes v) cs
                   /\ parseInt v = Some (durationMinutes (edited cs))).
Proof.
  pose proof (edited_duration cs) as Hd.
  assert (Hnz : durationMinutes (edited cs) <> 0).
  { destruct Hd as [-> | (v & _ & _ & H)]; [discriminate | exact H]. }
  split; [exact Hnz|]. split.
  - intros v Hv. simpl. unfold parseIntOr. destruct Hv as [-> | ->]; reflexivity.
  - unfold buildRequest.
    destruct (nonEmpty (trim (namespace _))); simpl; [|discriminate].
    destruct (nonEmpty (trim (reason _))); simpl; [|discriminate].
    destruct (nonEmpty (trim (approvedBy _))); simpl; [|discriminate].
    destruct (durationMinutes (edited cs) <? 1) eqn:E; [|discriminate].
    intros _. apply Z.ltb_lt in E. split; [lia|].
    destruct Hd as [H60 | (v & Hin & Hp & _)]; [lia | eauto].
Qed.

Lemma duration_never_zero_witness :
  durationMinutes (edited negativeDurationEdits) = -5
  /\ buildRequest (edited negativeDurationEdits)
     = Throw (Error (Text "Duration must be at least 1 minute"))
  /\ durationMinutes (edited negativeDurationEdits) < 0.
Proof.
  split; [reflexivity|]. split; [reflexivity|].
  destruct (duration_never_zero negativeDurationEdits) as (_ & _ & H).
  exact (proj1 (H eq_refl)).
Defined.

End ExemptionFormFacts.

(** ** pages/Templates.tsx: the schedule form *)

Section TemplateFormFacts.
Import JS Api ApplyTemplateModal Samples.
Variable newDate : jsstring -> Date.
Variable toISOString : Z -> jsstring.

(** What an accepted form looks like. *)
Lemma buildSchedule_Return (f : form) (sch : Schedule.t) :
  buildSchedule newDate toISOString f = Return sch ->
  hasWindow f = true /\ cron f <> []
  /\ exists s e, newDate (startInput f) = Some s
                 /\ newDate (endInput f) = Some e
                 /\ s < e
                 /\ Schedule.start sch = toISOString s
                 /\ Schedule.end_ sch = toISOString e
                 /\ Schedule.cron sch = cron f.
Proof.
  unfold buildSchedule, hasWindow.
  destruct (nonEmpty (startDate f)); simpl; [|discriminate].
  destruct (nonEmpty (startTime f)); simpl; [|discriminate].
  destruct (nonEmpty (endDate f)); simpl; [|discriminate].
  destruct (nonEmpty (endTime f)); simpl; [|discriminate].
  destruct (newDate (startInput f)) as [s|]; [|discriminate].
  destruct (newDate (endInput f)) as [e|]; [|discriminate].
  simpl. destruct (e <=? s) eqn:Ele; [discriminate|].
  destruct (nonEmpty (cron f)) eqn:Ec; simpl; [|discriminate].
  intros [= <-]. apply Z.leb_gt in Ele. apply nonEmpty_true in Ec.
  split; [reflexivity|]. split; [exact Ec|].
  exists s, e. repeat split; assumption.
Qed.

Lemma handleSubmit_refused (fetch : HttpRequest -> fetchResult) tn f st m :
  buildSchedule newDate toISOString f = Throw (Error (Text m)) ->
  handleSubmit newDate toISOString fetch tn f st = (Failed (Text m), st).
Proof. intros H. unfold handleSubmit. now rewrite H. Qed.

(** An end instant at or before the start instant is always refused. *)
Lemma buildSchedule_reversed (f : form) (s e : Z) :
  newDate (startInput f) = Some s ->
  newDate (endInput f) = Some e ->
  e <= s ->
  exists m, buildSchedule newDate toISOString f = Throw (Error (Text m))
            /\ (hasWindow f = true ->
                m = "End date/time must be after start date/time"%string).
Proof.
  intros Hs He Hle. unfold buildSchedule, hasWindow.
  destruct (nonEmpty (startDate f)); simpl;
    [|eexists; split; [reflexivity | discriminate]].
  destruct (nonEmpty (startTime f)); simpl;
    [|eexists; split; [reflexivity | discriminate]].
  destruct (nonEmpty (endDate f)); simpl;
    [|eexists; split; [reflexivity | discriminate]].
  destruct (nonEmpty (endTime f)); simpl;
    [|eexists; split; [reflexivity | discriminate]].
  rewrite Hs, He. simpl.
  apply Z.leb_le in Hle. rewrite Hle. eauto.
Qed.

End TemplateFormFacts.

Section ScheduleCreationFacts.
Import JS Api ApplyTemplateModal Samples.

(** C6.  Every schedule the form produces carries a start and an end
    instant with end > start.  An attempt whose end instant is at or
    before its start instant fails with an error (with all four date and
    time inputs filled in, the error 'End date/time must be after start
    date/time'), nothing is sent, and no schedule is produced. *)
Theorem schedule_window_invariant
    (newDate : jsstring -> Date) (toISOString : Z -> jsstring) (f : form) :
  (forall sch, buildSchedule newDate toISOString f = Return sch ->
     exists s e, newDate (startInput f) = Some s
                 /\ newDate (endInput f) = Some e
                 /\ Schedule.start sch = toISOString s
                 /\ Schedule.end_ sch = toISOString e
                 /\ e > s)
  /\ (forall s e, newDate (startInput f) = Some s ->
                  newDate (endInput f) = Some e ->
                  e <= s ->
      exists m,
        buildSchedule newDate toISOString f = Throw (Error (Text m))
        /\ (hasWindow f = true ->
            m = "End date/time must be after start date/time"%string)
        /\ forall fetch tn st,
             handleSubmit newDate toISOString fetch tn f st
             = (Failed (Text m), st)).
Proof.
  split.
  - intros sch H.
    apply buildSchedule_Return in H
      as (_ & _ & s & e & Hs & He & Hlt & H1 & H2 & _).
    exists s, e. repeat split; try assumption. lia.
  - intros s e Hs He Hle.
    destruct (buildSchedule_reversed newDate toISOString f s e Hs He Hle)
      as (m & Hm & Hmsg).
    exists m. split; [exact Hm|]. split; [exact Hmsg|].
    intros fetch tn st. now apply handleSubmit_refused.
Qed.

Lemma schedule_window_invariant_witness :
  (exists sch,
     buildSchedule RefDate.newDate RefDate.toISOString holidayForm = Return sch
     /\ Schedule.start sch = lit "2025-12-24T00:00:00.000Z"
     /\ Schedule.end_ sch = lit "2025-12-26T23:59:00.000Z")
  /\ handleSubmit RefDate.newDate RefDate.toISOString (okReply VNull)
       (lit "holiday-template") reversedForm (init None)
     = (Failed (Text "End date/time must be after start date/time"), init None).
Proof.
  destruct (schedule_window_invariant RefDate.newDate RefDate.toISOString
              reversedForm) as [_ Hrev].
  destruct (Hrev 1766707200000 1766620740000 eq_refl eq_refl ltac:(lia))
    as (m & _ & Hm & Hsub).
  split.
  - eexists. split; [vm_compute; reflexivity|]. split; reflexivity.
  - rewrite (Hsub (okReply VNull) (lit "holiday-template") (init None)).
    now rewrite (Hm eq_refl).
Defined.

(** C3, as the code has it.  The creation form accepts one shape only:
    every schedule it produces has a start instant, an end instant and a
    non-empty cron expression.  A window without a cron expression is
    refused, and so is a cron expression without a window. *)
Theorem accepted_schedule_has_window_and_cron
    (newDate : jsstring -> Date) (toISOString : Z -> jsstring) (f : form) :
  (forall sch, buildSchedule newDate toISOString f = Return sch ->
     shapeOf f = Some WindowAndCron
     /\ Schedule.cron sch = cron f /\ cron f <> []
     /\ exists s e, Schedule.start sch = toISOString s
                    /\ Schedule.end_ sch = toISOString e)
  /\ (shapeOf f = Some AbsoluteOnly ->
      exists m, buildSchedule newDate toISOString f = Throw (Error (Text m)))
  /\ (shapeOf f = Some CronOnly ->
      buildSchedule newDate toISOString f
      = Throw (Error (Text "Start date and time are required"))).
Proof.
  split; [|split].
  - intros sch H.
    apply buildSchedule_Return in H
      as (Hw & Hc & s & e & _ & _ & _ & H1 & H2 & H3).
    unfold shapeOf. rewrite Hw. apply nonEmpty_true in Hc as Hc'. rewrite Hc'.
    repeat split; eauto.
  - unfold shapeOf. destruct (hasWindow f) eqn:Hw.
    + destruct (nonEmpty (cron f)) eqn:Hc; [discriminate|]. intros _.
      destruct (buildSchedule newDate toISOString f) as [sch|[m|]] eqn:E.
      * apply buildSchedule_Return in E as (_ & Hne & _).
        apply nonEmpty_true in Hne. congruence.
      * destruct m as [m| | |]; eauto; exfalso; revert E; unfold buildSchedule;
          repeat (match goal with
                  | |- context [if ?b then _ else _] => destruct b
                  | |- context [match ?o with Some _ => _ | None => _ end] => destruct o
                  end; try discriminate).
      * exfalso; revert E; unfold buildSchedule;
          repeat (match goal with
                  | |- context [if ?b then _ else _] => destruct b
                  | |- context [match ?o with Some _ => _ | None => _ end] => destruct o
                  end; try discriminate).
    + destruct (noWindow f && nonEmpty (cron f)); discriminate.
  - unfold shapeOf. destruct (hasWindow f); [destruct (nonEmpty (cron f)); discriminate|].
    destruct (noWindow f && nonEmpty (cron f)) eqn:E; [|discriminate].
    intros _. apply andb_prop in E as [E _]. unfold noWindow in E.
    apply andb_prop in E as [E _]. unfold buildSchedule. now rewrite E.
Qed.

Lemma accepted_schedule_has_window_and_cron_witness :
  shapeOf holidayForm = Some WindowAndCron
  /\ exists sch,
       buildSchedule RefDate.newDate RefDate.toISOString holidayForm = Return sch
       /\ Schedule.cron sch = lit "0 22 * * *".
Proof.
  destruct (accepted_schedule_has_window_and_cron RefDate.newDate
              RefDate.toISOString holidayForm) as [H _].
  destruct (buildSchedule RefDate.newDate RefDate.toISOString holidayForm)
    as [sch|t] eqn:E; [|vm_compute in E; discriminate].
  destruct (H sch eq_refl) as (Hs & Hc & _).
  split; [exact Hs|]. exists sch. split; [reflexivity|]. rewrite Hc. reflexivity.
Defined.

(** C3 as stated fails: two of the three shapes are refused by the
    creation path.  A window with no cron expression is answered 'Cron
    expression is required'; a cron expression with no window is answered
    'Start date and time are required'. *)
Lemma schedule_shapes_counterexample :
  shapeOf windowOnlyForm = Some AbsoluteOnly
  /\ buildSchedule RefDate.newDate RefDate.toISOString windowOnlyForm
     = Throw (Error (Text "Cron expression is required"))
  /\ shapeOf cronOnlyForm = Some CronOnly
  /\ buildSchedule RefDate.newDate RefDate.toISOString cronOnlyForm
     = Throw (Error (Text "Start date and time are required")).
Proof. vm_compute. repeat split. Qed.

End ScheduleCreationFacts.

(** ** The exemption store *)

Section StoreFacts.
Import Core.

Lemma scan_ids ns rn (s : store) : map id (scan ns rn s).2 = map id s.
Proof.
  induction s as [|e s IH]; simpl; [reflexivity|].
  destruct (candidate ns rn e).
  - destruct (resource_name e); reflexivity.
  - destruct (scan ns rn s) as [r s']. simpl in *. now rewrite IH.
Qed.

(** Every answer comes from a stored candidate, marked when it names a
    resource. *)
Lemma scan_answer ns rn (s : store) (r : Exemption) :
  (scan ns rn s).1 = Some r ->
  exists e, In e s /\ candidate ns rn e = true
            /\ r = match resource_name e with
                   | Some _ => markUsed e
                   | None => e
                   end.
Proof.
  induction s as [|e s IH]; simpl; [discriminate|].
  destruct (candidate ns rn e) eqn:Ec.
  - destruct (resource_name e) eqn:Er; simpl; intros [= <-];
      exists e; rewrite Er; auto.
  - destruct (scan ns rn s) as [r' s']. simpl in *. intros H.
    destruct (IH H) as (e0 & Hin & Hc & Hr). exists e0. auto.
Qed.

(** Every entry of the store after a scan is an entry from before, as it
    was or marked used. *)
Lemma scan_entries ns rn (s : store) (e' : Exemption) :
  In e' (scan ns rn s).2 -> exists e, In e s /\ (e' = e \/ e' = markUsed e).
Proof.
  induction s as [|e s IH]; simpl; [contradiction|].
  destruct (candidate ns rn e).
  - destruct (resource_name e); simpl; intros [<- | H]; eauto.
  - destruct (scan ns rn s) as [r s']. simpl in *. intros [<- | H]; [eauto|].
    destruct (IH H) as (e0 & Hin & Hor). eauto.
Qed.

Lemma spent_filter i (f : Exemption -> bool) (s : store) :
  spent i s -> spent i (List.filter f s).
Proof. intros H e Hin. apply filter_In in Hin as [Hin _]. now apply H. Qed.

(** Preservation: a spent exemption is not returned, and stays spent. *)
Lemma spent_scan i ns rn (s : store) :
  spent i s ->
  returnsSpecific i (scan ns rn s).1 = false /\ spent i (scan ns rn s).2.
Proof.
  intros Hsp. split.
  - destruct (scan ns rn s).1 as [r|] eqn:E; [|reflexivity].
    apply scan_answer in E as (e & Hin & Hc & ->).
    unfold returnsSpecific.
    destruct (resource_name e) eqn:Er.
    + simpl. rewrite Er.
      destruct (String.eqb_spec (id e) i) as [Hid|]; [|reflexivity].
      exfalso. unfold candidate in Hc.
      rewrite (Hsp e Hin Hid) in Hc; [discriminate | rewrite Er; eauto].
    + rewrite Er. apply andb_false_intro2. apply bool_decide_eq_false.
      intros [x Hx]; discriminate.
  - intros e' Hin Hid Hsome.
    apply scan_entries in Hin as (e & Hin & [-> | ->]); [|reflexivity].
    now apply Hsp.
Qed.

(** Establishment: once returned, a resource-specific exemption is spent. *)
Lemma scan_spends i ns rn (s : store) :
  List.NoDup (map id s) ->
  returnsSpecific i (scan ns rn s).1 = true ->
  spent i (scan ns rn s).2.
Proof.
  induction s as [|e s IH]; simpl; [discriminate|].
  intros Hnd. apply NoDup_cons_iff in Hnd as [Hnotin Hnd].
  destruct (candidate ns rn e) eqn:Ec.
  - destruct (resource_name e) eqn:Er; simpl.
    + rewrite andb_true_iff. intros [Hid _]. apply String.eqb_eq in Hid.
      intros e' [<- | Hin] Hid' _; [reflexivity|].
      exfalso. apply Hnotin. apply in_map_iff. exists e'. split; congruence.
    + rewrite Er. rewrite andb_true_iff. intros [_ H].
      apply bool_decide_eq_true in H. destruct H; discriminate.
  - destruct (scan ns rn s) as [r s'] eqn:E. simpl in *. intros Hret.
    specialize (IH Hnd Hret).
    intros e' [<- | Hin] Hid' Hsome; [|now apply IH].
    exfalso. apply Hnotin.
    destruct r as [r|]; [|discriminate].
    assert (Hr : (scan ns rn s).1 = Some r) by now rewrite E.
    apply scan_answer in Hr as (e0 & Hin0 & _ & Hr0).
    apply andb_prop in Hret as [Hid _]. apply String.eqb_eq in Hid.
    apply in_map_iff. exists e0. split; [|exact Hin0].
    rewrite Hid', <- Hid, Hr0. now destruct (resource_name e0).
Qed.

Lemma NoDup_ids_filter (f : Exemption -> bool) (s : store) :
  List.NoDup (map id s) -> List.NoDup (map id (List.filter f s)).
Proof.
  induction s as [|e s IH]; simpl; [auto|].
  intros Hnd. apply NoDup_cons_iff in Hnd as [Hnotin Hnd].
  destruct (f e); simpl; [|auto].
  apply List.NoDup_cons; [|auto].
  intros Hin. apply Hnotin. apply in_map_iff in Hin as (e' & Hid & Hin).
  apply filter_In in Hin as [Hin _]. apply in_map_iff. eauto.
Qed.

Lemma matches_NoDup ns rn now (s : store) :
  List.NoDup (map id s) -> List.NoDup (map id (matches ns rn now s).2).
Proof.
  intros H. unfold matches. rewrite scan_ids. now apply NoDup_ids_filter.
Qed.

Lemma spent_matches i ns rn now (s : store) :
  spent i s ->
  returnsSpecific i (matches ns rn now s).1 = false
  /\ spent i (matches ns rn now s).2.
Proof. intros H. apply spent_scan. now apply spent_filter. Qed.

Lemma matches_spends i ns rn now (s : store) :
  List.NoDup (map id s) ->
  returnsSpecific i (matches ns rn now s).1 = true ->
  spent i (matches ns rn now s).2.
Proof. intros Hnd. apply scan_spends. now apply NoDup_ids_filter. Qed.

(** Use: from a spent store, no query of a run returns the exemption. *)
Lemma run_spent i (qs : list query) (s : store) :
  spent i s -> Forall (fun r => returnsSpecific i r = false) (run qs s).1.
Proof.
  revert s. induction qs as [|q qs IH]; intros s Hsp; simpl; [constructor|].
  destruct (spent_matches i (q_namespace q) (q_resource q) (q_now q) s Hsp)
    as [Hr Hs1].
  destruct (matches _ _ _ s) as [r s1]. simpl in *.
  specialize (IH s1 Hs1). destruct (run qs s1) as [rs s2]. simpl in *.
  now constructor.
Qed.

Lemma filter_none {A} (f : A -> bool) (l : list A) :
  Forall (fun x => f x = false) l -> List.filter f l = [].
Proof.
  induction 1 as [|x l Hx _ IH]; simpl; [reflexivity|]. now rewrite Hx.
Qed.

End StoreFacts.

Section SingleUse.
Import Core Samples.

Lemma run_at_most_once i (qs : list query) (s : store) :
  List.NoDup (map id s) ->
  (length (List.filter (returnsSpecific i) (run qs s).1) <= 1)%nat.
Proof.
  revert s. induction qs as [|q qs IH]; intros s Hnd; simpl; [lia|].
  pose proof (matches_NoDup (q_namespace q) (q_resource q) (q_now q) s Hnd) as Hnd1.
  pose proof (matches_spends i (q_namespace q) (q_resource q) (q_now q) s Hnd) as Hsp.
  destruct (matches _ _ _ s) as [r s1]. simpl in *.
  specialize (IH s1 Hnd1).
  pose proof (run_spent i qs s1) as Hrest.
  destruct (run qs s1) as [rs s2]. simpl in *.
  destruct (returnsSpecific i r) eqn:Er; [|exact IH].
  simpl. rewrite (filter_none _ _ (Hrest (Hsp eq_refl))). simpl. lia.
Qed.

(** C4.  With exemptions unique by id, over any sequence of match queries
    the store returns a given resource-specific exemption at most once.
    The answer that returns it carries [used = true]; from then on the
    stored exemption is marked used and no later query returns it. *)
Theorem single_use_exemption (i : string) (s : store) (qs : list query) :
  List.NoDup (map id s) ->
  (length (List.filter (returnsSpecific i) (run qs s).1) <= 1)%nat
  /\ forall ns rn now r,
       (matches ns rn now s).1 = Some r ->
       returnsSpecific i (Some r) = true ->
       used r = true
       /\ spent i (matches ns rn now s).2
       /\ Forall (fun r' => returnsSpecific i r' = false)
            (run qs (matches ns rn now s).2).1.
Proof.
  intros Hnd. split; [now apply run_at_most_once|].
  intros ns rn now r Hr Hret.
  assert (Hsp : spent i (matches ns rn now s).2).
  { apply matches_spends; [exact Hnd | now rewrite Hr]. }
  split; [|split; [exact Hsp | now apply run_spent]].
  unfold matches in Hr. apply scan_answer in Hr as (e & _ & _ & ->).
  simpl in Hret. apply andb_prop in Hret as [_ Hsome].
  apply bool_decide_eq_true in Hsome.
  destruct (resource_name e) eqn:Er; [reflexivity|].
  rewrite Er in Hsome. destruct Hsome; discriminate.
Qed.

Lemma single_use_exemption_witness :
  List.map (returnsSpecific "ex-1") (run webQueries [webExemption]).1
  = [true; false]
  /\ (length (List.filter (returnsSpecific "ex-1")
                (run webQueries [webExemption]).1) <= 1)%nat.
Proof.
  split; [reflexivity|].
  refine (proj1 (single_use_exemption "ex-1" [webExemption] webQueries _)).
  simpl. repeat constructor. intros [].
Defined.

End SingleUse.

(** ** Expiration *)

Section Expiration.
Import JS Samples.

(** The badge reads Active exactly on an unused exemption whose expiry
    parses to an instant after now. *)
Lemma statusOf_Active (newDate : jsstring -> Date) (now : Z) (e : Exemption.t) :
  ExemptionsPage.statusOf newDate now e = ExemptionsPage.Active
  <-> Exemption.used e = false
      /\ exists t, newDate (Exemption.expires_at e) = Some t /\ now < t.
Proof.
  unfold ExemptionsPage.statusOf.
  destruct (Exemption.used e); [split; [discriminate | intros [? _]; discriminate]|].
  destruct (newDate (Exemption.expires_at e)) as [t|]; simpl.
  - destruct (now <? t) eqn:E.
    + apply Z.ltb_lt in E. split; [eauto | reflexivity].
    + apply Z.ltb_ge in E. split; [discriminate|].
      intros (_ & t' & [= <-] & Hlt). lia.
  - split; [discriminate | intros (_ & t & Ht & _); discriminate].
Qed.

(** An answer of the store is a stored exemption that has not expired. *)
Lemma matches_not_expired ns rn now (s : Core.store) (r : Core.Exemption) :
  (Core.matches ns rn now s).1 = Some r ->
  now < Core.expires_at r
  /\ exists e, In e s /\ Core.expired now e = false
               /\ r = match Core.resource_name e with
                      | Some _ => Core.markUsed e
                      | None => e
                      end.
Proof.
  unfold Core.matches. intros H.
  apply scan_answer in H as (e & Hin & _ & ->).
  apply filter_In in Hin as [Hin Hexp]. apply negb_true_iff in Hexp.
  split; [|eauto].
  unfold Core.expired in Hexp. apply Z.leb_gt in Hexp.
  now destruct (Core.resource_name e).
Qed.

(** C5.  An exemption whose [expires_at] is at or before now is never
    treated as active: the store's matcher does not return it (every
    answer expires strictly after now), and the status badge does not read
    Active.  The badge reads Active only on an unused exemption with
    [expires_at] strictly after now. *)
Theorem expired_exemption_never_active (now : Z) :
  (forall ns rn (s : Core.store) (r : Core.Exemption),
     (Core.matches ns rn now s).1 = Some r -> now < Core.expires_at r)
  /\ (forall ns rn (s : Core.store) (e : Core.Exemption),
        Core.expires_at e <= now ->
        (Core.matches ns rn now s).1 <> Some e
        /\ (Core.matches ns rn now s).1 <> Some (Core.markUsed e))
  /\ (forall (newDate : jsstring -> Date) (e : Exemption.t) (t : Z),
        newDate (Exemption.expires_at e) = Some t -> t <= now ->
        ExemptionsPage.statusOf newDate now e <> ExemptionsPage.Active)
  /\ (forall (newDate : jsstring -> Date) (e : Exemption.t),
        ExemptionsPage.statusOf newDate now e = ExemptionsPage.Active
        <-> Exemption.used e = false
            /\ exists t, newDate (Exemption.expires_at e) = Some t /\ now < t).
Proof.
  split; [|split; [|split]].
  - intros ns rn s r H. now apply matches_not_expired in H.
  - intros ns rn s e Hle. split; intros H;
      apply matches_not_expired in H as [Hlt _]; simpl in Hlt; lia.
  - intros newDate e t Ht Hle H.
    apply statusOf_Active in H as (_ & t' & Ht' & Hlt).
    rewrite Ht in Ht'. injection Ht' as <-. lia.
  - intros newDate e. apply statusOf_Active.
Qed.

Lemma expired_exemption_never_active_witness :
  (Core.matches "prod" (Some "web"%string) (61 * Core.minute) [webExemption]).1
  = None
  /\ (Core.matches "prod" (Some "web"%string) (61 * Core.minute) [webExemption]).1
     <> Some webExemption.
Proof.
  split; [reflexivity|].
  destruct (expired_exemption_never_active (61 * Core.minute))
    as (_ & H & _).
  apply (H "prod"%string (Some "web"%string) [webExemption] webExemption).
  vm_compute. discriminate.
Defined.

End Expiration.

(** ** The policy evaluator *)

Section Evaluator.
Import Core Samples.
Variable cron_matches : string -> Z -> string -> bool.

(** The first step that fires decides. *)
Lemma first_firing_step_is_final cfg schedules (s : store) now R :
  exists k,
    List.find (fires cron_matches cfg schedules s now R) steps = Some k
    /\ (allow (evaluate cron_matches cfg schedules (Some s) now R).1,
        category (evaluate cron_matches cfg schedules (Some s) now R).1)
       = verdict k.
Proof.
  set (act := isActive cron_matches cfg schedules now (req_namespace R)).
  set (m := matches (req_namespace R) (resourceName R) now s).
  unfold evaluate, steps. cbn [List.find fires]. fold act m.
  destruct (kindFilter cfg R); [eexists; split; reflexivity|].
  destruct (operationFilter R); [eexists; split; reflexivity|].
  destruct (annotationBypass cfg R); [eexists; split; reflexivity|].
  destruct (userAllowlist cfg R); [eexists; split; reflexivity|].
  destruct (namespaceExemption cfg R); [eexists; split; reflexivity|].
  destruct m as [[e|] s']; cbn [fst snd bool_decide];
    [eexists; split; [rewrite bool_decide_eq_true_2 by eauto|]; reflexivity|].
  rewrite bool_decide_eq_false_2 by (intros [x Hx]; discriminate).
  destruct act as [[|] found]; cbn [fst]; eexists; split; reflexivity.
Qed.

End Evaluator.

Section BypassPrecedence.
Import Core Samples.

(** In every state of the store, the whole outcome of the evaluator (the
    decision with its reason, and the store afterwards) is the result of
    the first step, in the order of the contract, that fires. *)
Lemma evaluate_first_result (cron_matches : string -> Z -> string -> bool)
    cfg schedules (exemptions : option store) now R :
  firstResult (List.map (stepResult cron_matches cfg schedules exemptions now R) steps)
  = Some (evaluate cron_matches cfg schedules exemptions now R).
Proof.
  unfold evaluate, steps. cbn [List.map stepResult firstResult].
  destruct (kindFilter cfg R); [reflexivity|].
  destruct (operationFilter R); [reflexivity|].
  destruct (annotationBypass cfg R); [reflexivity|].
  destruct (userAllowlist cfg R); [reflexivity|].
  destruct (namespaceExemption cfg R); [reflexivity|].
  destruct exemptions as [s|]; [|reflexivity].
  unfold afterQuery.
  destruct (matches (req_namespace R) (resourceName R) now s) as [[e|] s'];
    [reflexivity|].
  destruct (isActive cron_matches cfg schedules now (req_namespace R))
    as [[|] found]; reflexivity.
Qed.

(** C1.  The steps of the evaluator are strictly ordered and the first
    that fires is final: in every state of the exemption store, available
    or not, the whole outcome of the evaluator (allow, reason, category and
    the store it leaves) is the result of the first step, in the order of
    the contract, that fires; an unavailable store is an internal error
    only when step 6 is reached, so it never pre-empts steps 1 to 5.  In
    particular, when the bypass annotation of a request is truthy the
    decision is allow, whatever the schedules, the exemption store (even
    unavailable), the allowlist, the exempt namespaces and the clock; the
    store is left untouched, and on a monitored kind under CREATE or UPDATE
    the category is BYPASS_ANNOTATION. *)
Theorem bypass_precedence
    (cron_matches : string -> Z -> string -> bool)
    (cfg : Config) (R : AdmissionRequest) :
  (forall schedules (s : store) now,
     exists k,
       List.find (fires cron_matches cfg schedules s now R) steps = Some k
       /\ (allow (evaluate cron_matches cfg schedules (Some s) now R).1,
           category (evaluate cron_matches cfg schedules (Some s) now R).1)
          = verdict k)
  /\ (forall schedules (exemptions : option store) now,
        firstResult
          (List.map (stepResult cron_matches cfg schedules exemptions now R) steps)
        = Some (evaluate cron_matches cfg schedules exemptions now R))
  /\ (forall schedules (s : store) now,
        kindFilter cfg R || operationFilter R || annotationBypass cfg R
        || userAllowlist cfg R || namespaceExemption cfg R = true ->
        (evaluate cron_matches cfg schedules None now R).1
        = (evaluate cron_matches cfg schedules (Some s) now R).1
        /\ (evaluate cron_matches cfg schedules None now R).2 = None
        /\ (evaluate cron_matches cfg schedules (Some s) now R).2 = Some s)
  /\ (forall schedules now,
        kindFilter cfg R || operationFilter R || annotationBypass cfg R
        || userAllowlist cfg R || namespaceExemption cfg R = false ->
        evaluate cron_matches cfg schedules None now R
        = ({| allow := negb (fail_closed cfg); decision_reason := "";
              category := INTERNAL_ERROR |}, None))
  /\ (annotationBypass cfg R = true ->
      forall schedules exemptions now,
        allow (evaluate cron_matches cfg schedules exemptions now R).1 = true
        /\ (evaluate cron_matches cfg schedules exemptions now R).2 = exemptions
        /\ (kindFilter cfg R = false -> operationFilter R = false ->
            category (evaluate cron_matches cfg schedules exemptions now R).1
            = BYPASS_ANNOTATION)).
Proof.
  split; [|split; [|split; [|split]]].
  - intros schedules s now. apply first_firing_step_is_final.
  - intros schedules exemptions now. apply evaluate_first_result.
  - intros schedules s now. unfold evaluate.
    destruct (kindFilter cfg R); [repeat split|].
    destruct (operationFilter R); [repeat split|].
    destruct (annotationBypass cfg R); [repeat split|].
    destruct (userAllowlist cfg R); [repeat split|].
    destruct (namespaceExemption cfg R); [repeat split | discriminate].
  - intros schedules now. unfold evaluate.
    destruct (kindFilter cfg R); [discriminate|].
    destruct (operationFilter R); [discriminate|].
    destruct (annotationBypass cfg R); [discriminate|].
    destruct (userAllowlist cfg R); [discriminate|].
    destruct (namespaceExemption cfg R); [discriminate | reflexivity].
  - intros Ha schedules exemptions now. unfold evaluate. rewrite Ha.
    destruct (kindFilter cfg R); [repeat split; discriminate|].
    destruct (operationFilter R); [repeat split; discriminate|].
    repeat split.
Qed.

Lemma bypass_precedence_witness :
  category (evaluate noCron holidayConfig [holidaySchedule] (Some [])
              christmasMorning plainRequest).1 = FROZEN
  /\ allow (evaluate noCron holidayConfig [holidaySchedule] (Some [])
              christmasMorning bypassRequest).1 = true
  /\ category (evaluate noCron holidayConfig [holidaySchedule] (Some [])
                 christmasMorning bypassRequest).1 = BYPASS_ANNOTATION
  /\ (allow (evaluate noCron oncallConfig [] None christmasMorning
               oncallRequest).1,
      category (evaluate noCron oncallConfig [] None christmasMorning
                  oncallRequest).1) = (true, BYPASS_USER)
  /\ (allow (evaluate noCron oncallConfig [] None christmasMorning
               plainRequest).1,
      category (evaluate noCron oncallConfig [] None christmasMorning
                  plainRequest).1) = (false, INTERNAL_ERROR).
Proof.
  split; [vm_compute; reflexivity|].
  destruct (bypass_precedence noCron holidayConfig bypassRequest)
    as (_ & _ & _ & _ & H).
  destruct (H ltac:(vm_compute; reflexivity) [holidaySchedule] (Some [])
              christmasMorning) as (H1 & _ & H3).
  split; [exact H1|]. split; [apply H3; vm_compute; reflexivity|].
  destruct (bypass_precedence noCron oncallConfig oncallRequest)
    as (_ & _ & Hup & _).
  destruct (Hup [] [] christmasMorning ltac:(vm_compute; reflexivity))
    as (Hsame & _ & _).
  split; [rewrite Hsame; vm_compute; reflexivity|].
  destruct (bypass_precedence noCron oncallConfig plainRequest)
    as (_ & _ & _ & Hdown & _).
  rewrite (Hdown [] christmasMorning ltac:(vm_compute; reflexivity)).
  reflexivity.
Defined.

End BypassPrecedence.

(* ===================================================================== *)
(** * Further properties of the front end *)
(* ===================================================================== *)

(** ** services/api.ts: the token *)

Section TokenFacts.
Import JS Api Samples MoreSamples.

(** X1.  Storing a token and reading it back: [setToken] keeps the trimmed
    token in memory and in localStorage, [getToken] then returns it, or
    null when nothing but white space was given, and [isAuthenticated]
    agrees; clearing afterwards logs out. *)
Theorem setToken_getToken_roundtrip (t : jsstring) (st : state) :
  token (setToken t st) = Some (trim t)
  /\ localStorage_token (setToken t st) = Some (trim t)
  /\ getToken (setToken t st) = (if nonEmpty (trim t) then Some (trim t) else None)
  /\ Api.isAuthenticated (setToken t st) = nonEmpty (trim t)
  /\ getToken (clearToken (setToken t st)) = None.
Proof.
  repeat split.
  - rewrite getToken_setToken. now destruct (trim t).
  - apply isAuthenticated_setToken.
Qed.

(** X2.  Whatever localStorage held, the bearer token that [request] puts
    in the Authorization header is never empty and carries no surrounding
    white space; the header is present exactly when [isAuthenticated()]
    is true. *)
Theorem authorization_header_is_trimmed endpoint m payload (st : state) :
  match authorization (outgoing endpoint m payload st) with
  | Some h => h <> [] /\ trim h = h /\ getToken st = Some h
              /\ Api.isAuthenticated st = true
  | None => Api.isAuthenticated st = false
  end.
Proof.
  unfold outgoing, Api.isAuthenticated, getToken. simpl.
  destruct (orElse (token st) (localStorage_token st)) as [[|c s]|];
    try reflexivity.
  destruct (trim (c :: s)) as [|c' s'] eqn:E; [reflexivity|].
  repeat split; try discriminate.
  rewrite <- E. apply trim_idem.
Qed.

End TokenFacts.

(** ** services/api.ts: request *)

Section RequestFacts.
Import JS Api Samples MoreSamples.
Variable fetch : HttpRequest -> fetchResult.

(** X3.  [request] returns a value exactly on a response with a status
    from 200 to 299 whose body parses to something other than null; the
    value is the [data] property of the body.  Every other outcome is an
    exception. *)
Theorem request_returns_iff endpoint m payload (st : state) (v : value) :
  (request fetch endpoint m payload st).1 = Return v
  <-> exists r data,
        fetch (outgoing endpoint m payload st) = Responded r
        /\ 200 <= status r <= 299
        /\ body r = Some data
        /\ get data "data" = Return v.
Proof.
  unfold request. split.
  - destruct (fetch _) as [[e|]|r]; try discriminate.
    destruct (status r =? 401) eqn:E1; [discriminate|].
    destruct (status r =? 403) eqn:E3.
    { destruct (get _ _); discriminate. }
    destruct (ok r) eqn:Eok; simpl.
    2:{ destruct (get _ _); discriminate. }
    destruct (body r) as [data|] eqn:Eb; [|discriminate].
    destruct (get data "data") as [d|t] eqn:Eg; [|discriminate].
    simpl. intros [= <-]. exists r, data.
    unfold ok in Eok. apply andb_prop in Eok as [H1 H2].
    apply Z.leb_le in H1, H2. repeat split; auto.
  - intros (r & data & Hf & [H1 H2] & Hb & Hg). rewrite Hf.
    destruct (status r =? 401) eqn:E1; [apply Z.eqb_eq in E1; lia|].
    destruct (status r =? 403) eqn:E3; [apply Z.eqb_eq in E3; lia|].
    unfold ok. apply Z.leb_le in H1, H2. rewrite H1, H2. simpl.
    rewrite Hb, Hg. reflexivity.
Qed.

(** X4.  Only a 401 logs the user out: on every other outcome (a network
    failure, a 403, a 500, an unreadable body) [request] leaves the token
    as it was. *)
Theorem request_keeps_token_unless_unauthorized endpoint m payload (st : state) :
  unauthorized (fetch (outgoing endpoint m payload st)) = false ->
  (request fetch endpoint m payload st).2 = st.
Proof.
  intros H. pose proof (request_state fetch endpoint m payload st) as Hs.
  now rewrite H in Hs.
Qed.

(** X5.  Whatever [request] throws is an Error object, so a caller's
    [err instanceof Error] test always succeeds; a rejection of [fetch]
    with something that is not an Error is replaced by the error 'Network
    error'. *)
Theorem request_throws_errors_only endpoint m payload (st : state) (t : thrown) :
  (request fetch endpoint m payload st).1 = Throw t ->
  exists msg, t = Error msg
              /\ (fetch (outgoing endpoint m payload st) = Rejected NonError ->
                  msg = Text "Network error").
Proof.
  unfold request.
  destruct (fetch _) as [[e|]|r].
  - simpl. intros [= <-]. eexists. split; [reflexivity | discriminate].
  - simpl. intros [= <-]. eexists. split; reflexivity.
  - assert (Hget : forall (v : value) k t', get v k = Throw t' -> t' = Error Engine).
    { intros v k t'. destruct v; simpl; congruence. }
    destruct (status r =? 401); simpl.
    { intros [= <-]. eexists. split; [reflexivity | discriminate]. }
    destruct (status r =? 403).
    { destruct (get _ _) as [d|t'] eqn:Eg; simpl; intros [= <-].
      - eexists. split; [reflexivity | discriminate].
      - apply Hget in Eg as ->. eexists. split; [reflexivity | discriminate]. }
    destruct (negb (ok r)).
    { destruct (get _ _) as [d|t'] eqn:Eg; simpl; intros [= <-].
      - eexists. split; [reflexivity | discriminate].
      - apply Hget in Eg as ->. eexists. split; [reflexivity | discriminate]. }
    destruct (body r) as [data|]; simpl.
    + destruct (get data "data") as [d|t'] eqn:Eg; simpl; [discriminate|].
      intros [= <-]. apply Hget in Eg as ->.
      eexists. split; [reflexivity | discriminate].
    + intros [= <-]. eexists. split; [reflexivity | discriminate].
Qed.

End RequestFacts.

Section RequestWitnesses.
Import JS Api Samples MoreSamples.

Lemma request_keeps_token_unless_unauthorized_witness :
  (request unavailableReply (lit "/freeze/status") GET None
     (init (Some (lit "key")))).2 = init (Some (lit "key")).
Proof.
  apply (request_keeps_token_unless_unauthorized unavailableReply).
  reflexivity.
Defined.

Lemma request_throws_errors_only_witness :
  exists msg,
    (request unreachable (lit "/freeze/status") GET None (init None)).1
    = Throw (Error msg).
Proof.
  destruct (request_throws_errors_only unreachable (lit "/freeze/status") GET
              None (init None) (Error Engine) eq_refl) as (msg & Hm & _).
  exists msg. rewrite <- Hm. reflexivity.
Defined.

End RequestWitnesses.

(** ** services/api.ts: the list calls *)

Section ListCallFacts.
Import JS Api ApiCalls Samples MoreSamples.
Variable fetch : HttpRequest -> fetchResult.

Lemma getExemptions_getList (st : state) :
  getExemptions fetch st = getList fetch (lit "/freeze/exemptions") st.
Proof. reflexivity. Qed.

(** X6.  The list calls ([getExemptions], [getTemplates], [getSchedules],
    [getHistory]) never hand a falsy value to the page: an array reply is
    returned as it is, a wrapped reply gives its [data], an object without
    [data] gives the empty array.  But a reply whose envelope has no
    [data], or a null one, makes the call throw, although the status was
    2xx. *)
Theorem list_call_result endpoint (st : state) :
  (forall v, (getList fetch endpoint st).1 = Return v ->
     truthy v = true
     /\ exists response,
          (request fetch endpoint GET None st).1 = Return response
          /\ (isArray response = true -> v = response)
          /\ (forall fields, response = VObj fields ->
                v = if truthy (lookupField "data" fields)
                    then lookupField "data" fields else VArr []))
  /\ (forall response,
        (request fetch endpoint GET None st).1 = Return response ->
        response = VUndefined \/ response = VNull ->
        (getList fetch endpoint st).1 = Throw (Error Engine)).
Proof.
  unfold getList. split.
  - intros v. destruct (request fetch endpoint GET None st) as [[response|t] st'];
      simpl; [|discriminate].
    unfold unwrapList.
    destruct response; simpl; try discriminate; intros [= <-];
      (split; [try reflexivity | eexists; split; [reflexivity|];
               split; [try discriminate; try reflexivity | intros ? [=]; subst; reflexivity]]).
    destruct (truthy (lookupField "data" fields)) eqn:E; [exact E | reflexivity].
  - intros response Hr Hor.
    destruct (request fetch endpoint GET None st) as [[r|t] st']; simpl in *;
      [|discriminate].
    injection Hr as ->. destruct Hor as [-> | ->]; reflexivity.
Qed.

(** X7.  The history endpoint carries a query string exactly when some
    argument is truthy: a missing or zero limit and missing or empty
    filters give the bare path [/freeze/history], anything else the path
    followed by [?] and a non-empty query.  So [getHistory(0)] asks for the
    server's default, not for zero events. *)
Theorem history_endpoint_query (formEncode : jsstring -> jsstring)
    (limit : option Z) (eventType namespace : option jsstring) :
  (historyParams limit eventType namespace = []
   <-> (limit = None \/ limit = Some 0)
       /\ (eventType = None \/ eventType = Some [])
       /\ (namespace = None \/ namespace = Some []))
  /\ (historyParams limit eventType namespace = [] ->
      historyEndpoint formEncode limit eventType namespace = lit "/freeze/history")
  /\ (historyParams limit eventType namespace <> [] ->
      exists q, q <> []
                /\ historyEndpoint formEncode limit eventType namespace
                   = lit "/freeze/history?" ++ q).
Proof.
  split; [|split].
  - unfold historyParams. split.
    + intros H. apply app_eq_nil in H as [H1 H2]. apply app_eq_nil in H2 as [H2 H3].
      repeat split.
      * destruct limit as [n|]; [|now left]. right.
        destruct (n =? 0) eqn:E; [apply Z.eqb_eq in E; now subst | discriminate].
      * destruct eventType as [[|c s]|]; auto; discriminate.
      * destruct namespace as [[|c s]|]; auto; discriminate.
    + intros ([-> | ->] & [-> | ->] & [-> | ->]); reflexivity.
  - intros H. unfold historyEndpoint. rewrite H. reflexivity.
  - intros H. unfold historyEndpoint.
    destruct (historyParams limit eventType namespace) as [|[k v] rest];
      [contradiction|].
    assert (Hq : serialize formEncode ((k, v) :: rest) <> []).
    { destruct rest as [|p rest]; simpl; intros Hn;
        apply app_eq_nil in Hn as [_ Hn]; discriminate. }
    exists (serialize formEncode ((k, v) :: rest)). split; [exact Hq|].
    apply nonEmpty_true in Hq. rewrite Hq. reflexivity.
Qed.

End ListCallFacts.

Section HistoryWitness.
Import JS Api ApiCalls Samples MoreSamples.

(** The History page asks for a hundred events. *)
Lemma history_endpoint_query_witness :
  historyEndpoint plainEncode (Some 100) None None
  = lit "/freeze/history?limit=100"
  /\ historyEndpoint plainEncode (Some 0) None (Some []) = lit "/freeze/history".
Proof.
  split; [reflexivity|].
  destruct (history_endpoint_query plainEncode (Some 0) None (Some []))
    as (_ & H & _).
  apply H. reflexivity.
Defined.

End HistoryWitness.

(** ** services/auth.ts and pages/Login.tsx *)

Section LoginFacts.
Import JS Api Auth Samples MoreSamples.
Variable fetch : HttpRequest -> fetchResult.

Lemma validateApiKey_succeeded k (st : state) :
  (validateApiKey fetch k st).1 = true ->
  (validateApiKey fetch k st).2 = setToken (trim k) st.
Proof.
  unfold validateApiKey, getExemptions.
  set (st1 := setToken (trim k) st).
  pose proof (request_state fetch (lit "/freeze/exemptions") GET None st1) as H.
  destruct (unauthorized _).
  - rewrite H. discriminate.
  - destruct (request _ _ _ _ _) as [[response|t] st2]; simpl in *; subst st2;
      [|discriminate].
    destruct (unwrapList response); simpl; [reflexivity | discriminate].
Qed.

(** X8.  [login] succeeds exactly when the probe of the key does, and then
    the trimmed key is the stored token, in memory and in localStorage.
    [isAuthenticated()] is true afterwards unless the key was nothing but
    white space. *)
Theorem login_success_state (k : jsstring) (st : state) :
  (login fetch k st).1 = (validateApiKey fetch k st).1
  /\ ((login fetch k st).1 = true ->
      token (login fetch k st).2 = Some (trim k)
      /\ localStorage_token (login fetch k st).2 = Some (trim k)
      /\ Auth.isAuthenticated (login fetch k st).2 = nonEmpty (trim k)).
Proof.
  unfold login. rewrite validateApiKey_trim.
  pose proof (validateApiKey_succeeded k st) as Hok.
  destruct (validateApiKey fetch k st) as [[|] st1]; simpl in *;
    (split; [reflexivity|]); [|discriminate].
  intros _. rewrite (Hok eq_refl).
  unfold Auth.isAuthenticated. rewrite isAuthenticated_setToken.
  simpl. now rewrite !trim_idem.
Qed.

(** X9.  [login] does not see white space around the key, and neither its
    answer nor the state it leaves depends on the token stored before:
    logging in replaces the previous session whole. *)
Theorem login_ignores_padding_and_previous_token (k : jsstring) (st st' : state) :
  login fetch k st = login fetch (trim k) st'.
Proof.
  unfold login. cbv zeta. rewrite !trim_idem.
  change (validateApiKey fetch (trim k) st')
    with (validateApiKey fetch (trim k) st).
  reflexivity.
Qed.

(** X10.  The login form has one failure message.  Whatever made the probe
    fail (a rejected key, a server error, no network at all), the user is
    told 'Invalid API key. Please check your key and try again.'; the form
    logs in exactly when the probe succeeded. *)
Theorem login_page_outcome (apiKey : jsstring) (st : state) :
  match (LoginPage.handleSubmit fetch apiKey st).1 with
  | LoginPage.LoggedIn =>
      (validateApiKey fetch apiKey st).1 = true
      /\ token (LoginPage.handleSubmit fetch apiKey st).2 = Some (trim apiKey)
  | LoginPage.ShowError m =>
      (validateApiKey fetch apiKey st).1 = false
      /\ m = Text "Invalid API key. Please check your key and try again."
  end.
Proof.
  unfold LoginPage.handleSubmit, login. cbv zeta.
  rewrite !trim_idem, validateApiKey_trim.
  destruct (validateApiKey fetch apiKey st) as [[|] st1]; simpl;
    rewrite ?trim_idem; split; reflexivity.
Qed.

End LoginFacts.

Section LoginWitnesses.
Import JS Api Auth Samples MoreSamples.

Lemma login_success_state_witness :
  (login (keyedReply (VArr [])) (lit " s3cret ") (init None)).1 = true
  /\ token (login (keyedReply (VArr [])) (lit " s3cret ") (init None)).2
     = Some (lit "s3cret").
Proof.
  destruct (login_success_state (keyedReply (VArr [])) (lit " s3cret ")
              (init None)) as [H1 H2].
  split; [reflexivity|]. exact (proj1 (H2 eq_refl)).
Defined.

(** With the network down the form still blames the key. *)
Lemma login_page_outcome_witness :
  (LoginPage.handleSubmit unreachable (lit "s3cret") (init None)).1
  = LoginPage.ShowError
      (Text "Invalid API key. Please check your key and try again.").
Proof.
  pose proof (login_page_outcome unreachable (lit "s3cret") (init None)) as H.
  destruct (LoginPage.handleSubmit unreachable (lit "s3cret") (init None)).1
    as [|m]; [destruct H as [H _]; vm_compute in H; discriminate|].
  destruct H as [_ ->]. reflexivity.
Defined.

End LoginWitnesses.

(** ** pages/Exemptions.tsx: more on the creation form *)

Section ExemptionFormMore.
Import JS Api CreateExemptionModal Samples MoreSamples.

(** X11.  Every request the form builds is clean: namespace, reason and
    approver are non-empty and carry no surrounding white space, the
    duration is at least 1, and a resource name, when present, is
    non-empty and trimmed too. *)
Theorem built_request_is_trimmed (f : form) (r : ExemptionCreateRequest.t) :
  buildRequest f = Return r ->
  (ExemptionCreateRequest.namespace r <> []
   /\ trim (ExemptionCreateRequest.namespace r) = ExemptionCreateRequest.namespace r)
  /\ (ExemptionCreateRequest.reason r <> []
      /\ trim (ExemptionCreateRequest.reason r) = ExemptionCreateRequest.reason r)
  /\ (ExemptionCreateRequest.approved_by r <> []
      /\ trim (ExemptionCreateRequest.approved_by r)
         = ExemptionCreateRequest.approved_by r)
  /\ 1 <= ExemptionCreateRequest.duration_minutes r
  /\ (forall n, ExemptionCreateRequest.resource_name r = Some n ->
                n <> [] /\ trim n = n).
Proof.
  intros H. apply buildRequest_Return in H as (H1 & H2 & H3 & H4 & ->). simpl.
  repeat split; try assumption; try apply trim_idem.
  - intros ->. destruct (nonEmpty (trim (resourceName f))) eqn:E; [|discriminate].
    injection H as H. apply nonEmpty_true in E. congruence.
  - destruct (nonEmpty (trim (resourceName f))); [|discriminate].
    injection H as <-. apply trim_idem.
Qed.

Lemma built_request_is_trimmed_witness :
  exists r, buildRequest hotfixForm = Return r
            /\ ExemptionCreateRequest.namespace r = lit "prod"
            /\ trim (ExemptionCreateRequest.namespace r)
               = ExemptionCreateRequest.namespace r.
Proof.
  eexists. split; [reflexivity|]. split; [reflexivity|].
  exact (proj2 (proj1 (built_request_is_trimmed hotfixForm _ eq_refl))).
Defined.

(** X12.  Submitting a valid form under a key the server no longer
    accepts: on a 401 the form shows 'Authentication required' and the
    user is logged out; on any other outcome the stored token is left
    alone, whether the creation succeeded or not. *)
Theorem create_exemption_unauthorized_logs_out
    (fetch : HttpRequest -> fetchResult) (f : form)
    (r : ExemptionCreateRequest.t) (st : state) :
  buildRequest f = Return r ->
  if unauthorized (fetch (sent r st))
  then handleSubmit fetch f st
       = (Failed (Text "Authentication required"), clearToken st)
       /\ Api.isAuthenticated (handleSubmit fetch f st).2 = false
  else (handleSubmit fetch f st).2 = st.
Proof.
  intros Hb. unfold handleSubmit, createExemption. rewrite Hb.
  pose proof (request_state fetch (lit "/freeze/exemptions") POST
                (Some (ExemptionCreateRequest.toJSON r)) st) as H.
  unfold sent. destruct (unauthorized _).
  - rewrite H. split; reflexivity.
  - destruct (request _ _ _ _ _) as [[v|t] st']; simpl in *; now subst.
Qed.

Lemma create_exemption_unauthorized_logs_out_witness :
  handleSubmit unauthorizedReply hotfixForm (init (Some (lit "old-key")))
  = (Failed (Text "Authentication required"), clearToken (init (Some (lit "old-key")))).
Proof.
  exact (proj1 (create_exemption_unauthorized_logs_out unauthorizedReply
                  hotfixForm _ (init (Some (lit "old-key"))) eq_refl)).
Defined.

End ExemptionFormMore.

(** ** The duration input: printing and parsing *)

Section DecimalFacts.
Import JS JSText CreateExemptionModal.

Lemma digitValue_digit (c : N) :
  isDigit c = true -> digitValue c = Some (Z.of_N c - 48) /\ Z.of_N c - 48 < 10.
Proof.
  unfold isDigit, digitValue. intros H. rewrite H. split; [reflexivity|].
  apply andb_prop in H as [_ H]. apply N.leb_le in H. lia.
Qed.

Lemma digits_run (ds : jsstring) (a : Z) :
  Forall (fun c => isDigit c = true) ds ->
  digits 10 (Some a) ds = Some (valueOf ds a).
Proof.
  intros H. revert a. induction H as [|c ds Hc _ IH]; intros a; [reflexivity|].
  simpl. destruct (digitValue_digit c Hc) as [-> Hlt].
  apply Z.ltb_lt in Hlt. rewrite Hlt. simpl. apply IH.
Qed.

Lemma digits_run_start (ds : jsstring) :
  ds <> [] -> Forall (fun c => isDigit c = true) ds ->
  digits 10 None ds = Some (valueOf ds 0).
Proof.
  intros Hne H. destruct H as [|c ds Hc H]; [contradiction|].
  simpl. destruct (digitValue_digit c Hc) as [-> Hlt].
  apply Z.ltb_lt in Hlt. rewrite Hlt. simpl. now apply digits_run.
Qed.

Lemma isDigit_of_digit (d : Z) :
  0 <= d < 10 -> isDigit (Z.to_N (48 + d)) = true
                 /\ Z.of_N (Z.to_N (48 + d)) - 48 = d.
Proof.
  intros H. unfold isDigit. split; [|lia].
  apply andb_true_intro. split; apply N.leb_le; lia.
Qed.

(** [decimal] puts in front of [acc] a non-empty run of digits whose value
    is [n]. *)
Lemma decimal_spec (fuel : nat) :
  forall n acc, 0 <= n < 10 ^ Z.of_nat (S fuel) ->
  exists ds, decimal (S fuel) n acc = ds ++ acc /\ ds <> []
             /\ Forall (fun c => isDigit c = true) ds
             /\ forall a, valueOf ds a = a * 10 ^ Z.of_nat (length ds) + n.
Proof.
  induction fuel as [|fuel IH]; intros n acc Hn.
  - assert (Hd : 0 <= n < 10) by (change (10 ^ Z.of_nat 1) with 10 in Hn; lia).
    destruct (isDigit_of_digit _ Hd) as [Hdig Hval].
    exists [Z.to_N (48 + n)]. simpl decimal.
    rewrite Z.mod_small by lia.
    split; [now destruct (n <? 10)|]. split; [discriminate|].
    split; [repeat constructor; exact Hdig|].
    intros a. simpl. rewrite Hval. lia.
  - change (decimal (S (S fuel)) n acc)
      with (let acc' := Z.to_N (48 + n mod 10) :: acc in
            if n <? 10 then acc' else decimal (S fuel) (n / 10) acc').
    cbv zeta.
    assert (Hd : 0 <= n mod 10 < 10) by (apply Z.mod_pos_bound; lia).
    destruct (isDigit_of_digit _ Hd) as [Hdig Hval].
    destruct (n <? 10) eqn:E.
    + apply Z.ltb_lt in E. exists [Z.to_N (48 + n mod 10)].
      split; [reflexivity|]. split; [discriminate|].
      split; [repeat constructor; exact Hdig|].
      intros a. simpl. rewrite Hval. rewrite Z.mod_small by lia. lia.
    + apply Z.ltb_ge in E.
      assert (Hn' : 0 <= n / 10 < 10 ^ Z.of_nat (S fuel)).
      { split; [apply Z.div_pos; lia|].
        apply Z.div_lt_upper_bound; [lia|].
        rewrite (Nat2Z.inj_succ (S fuel)), Z.pow_succ_r in Hn by lia. lia. }
      destruct (IH (n / 10) (Z.to_N (48 + n mod 10) :: acc) Hn')
        as (ds & Heq & Hne & Hall & Hv).
      exists (ds ++ [Z.to_N (48 + n mod 10)]).
      split; [rewrite Heq, <- app_assoc; reflexivity|].
      split; [intros H; apply app_eq_nil in H as [_ H]; discriminate|].
      split; [apply Forall_app; split; [exact Hall | repeat constructor; exact Hdig]|].
      intros a. unfold valueOf. rewrite fold_left_app. simpl.
      fold (valueOf ds a). rewrite Hv, Hval.
      rewrite length_app. simpl length. rewrite Nat2Z.inj_add.
      change (Z.of_nat 1) with 1. rewrite Z.pow_add_r by lia.
      pose proof (Z.div_mod n 10 ltac:(lia)). lia.
Qed.

Lemma fuel_enough (n : Z) : 0 <= n -> n < 10 ^ Z.of_nat (S (Z.to_nat (Z.log2 n))).
Proof.
  intros Hn. destruct (Z.eq_dec n 0) as [-> | Hz]; [reflexivity|].
  assert (Hpos : 0 < n) by lia.
  pose proof (Z.log2_nonneg n) as Hl.
  destruct (Z.log2_spec n Hpos) as [_ Hlt].
  rewrite Nat2Z.inj_succ, Z2Nat.id by exact Hl.
  eapply Z.lt_le_trans; [exact Hlt|].
  apply Z.pow_le_mono_l. lia.
Qed.

Lemma digits_decimal (n : Z) :
  0 <= n -> digits 10 None (decimal (S (Z.to_nat (Z.log2 n))) n []) = Some n.
Proof.
  intros Hn.
  destruct (decimal_spec (Z.to_nat (Z.log2 n)) n [] (conj Hn (fuel_enough n Hn)))
    as (ds & Heq & Hne & Hall & Hv).
  rewrite Heq, app_nil_r, (digits_run_start ds Hne Hall), Hv. reflexivity.
Qed.

(** The printed form starts with a digit or a minus sign, never with white
    space, a plus sign or a hexadecimal prefix that begins a run. *)
Lemma decimal_head (fuel : nat) (n : Z) (acc : jsstring) :
  0 <= n -> decimal (S fuel) n acc <> []
  /\ exists c rest, decimal (S fuel) n acc = c :: rest /\ isDigit c = true.
Proof.
  revert n acc. induction fuel as [|fuel IH]; intros n acc Hn.
  - simpl.
    assert (Hd : 0 <= n mod 10 < 10) by (apply Z.mod_pos_bound; lia).
    destruct (isDigit_of_digit _ Hd) as [Hdig _].
    destruct (n <? 10); (split; [discriminate | eauto]).
  - change (decimal (S (S fuel)) n acc)
      with (let acc' := Z.to_N (48 + n mod 10) :: acc in
            if n <? 10 then acc' else decimal (S fuel) (n / 10) acc').
    cbv zeta.
    assert (Hd : 0 <= n mod 10 < 10) by (apply Z.mod_pos_bound; lia).
    destruct (isDigit_of_digit _ Hd) as [Hdig _].
    destruct (n <? 10); [split; [discriminate | eauto]|].
    apply IH. apply Z.div_pos; lia.
Qed.

End DecimalFacts.

Section ParsePrinted.
Import JS JSText CreateExemptionModal Samples MoreSamples.

Lemma isDigit_cases (c : N) :
  isDigit c = true ->
  (c = 48 \/ c = 49 \/ c = 50 \/ c = 51 \/ c = 52 \/ c = 53 \/ c = 54
   \/ c = 55 \/ c = 56 \/ c = 57)%N.
Proof.
  unfold isDigit. intros H. apply andb_prop in H as [H1 H2].
  apply N.leb_le in H1, H2. lia.
Qed.

Local Opaque digits.

(** [parseInt] on a run of decimal digits, bare or after a minus sign. *)
Lemma parseInt_digit_run (ds : jsstring) :
  ds <> [] -> Forall (fun c => isDigit c = true) ds ->
  parseInt ds = Some (valueOf ds 0)
  /\ parseInt (45%N :: ds) = Some (- valueOf ds 0).
Proof.
  intros Hne Hall. pose proof (digits_run_start ds Hne Hall) as Hrun.
  remember (valueOf ds 0) as V eqn:HV. clear HV.
  destruct Hall as [|c ds Hc Hall]; [contradiction|].
  assert (Hsecond : ds = [] \/ exists d ds', ds = d :: ds' /\ isDigit d = true).
  { destruct Hall as [|d ds' Hd _]; [now left | right; eauto]. }
  unfold parseInt.
  destruct (isDigit_cases c Hc) as [->|[->|[->|[->|[->|[->|[->|[->|[->| ->]]]]]]]]];
    try (split; simpl; rewrite Hrun; f_equal; lia).
  destruct Hsecond as [-> | (d & ds' & -> & Hd)].
  - split; simpl; rewrite Hrun; f_equal; lia.
  - destruct (isDigit_cases d Hd) as [->|[->|[->|[->|[->|[->|[->|[->|[->| ->]]]]]]]]];
      split; simpl; rewrite Hrun; f_equal; lia.
Qed.

Local Transparent digits.

Lemma decimal_digits (n : Z) :
  0 <= n ->
  decimal (S (Z.to_nat (Z.log2 n))) n [] <> []
  /\ Forall (fun c => isDigit c = true) (decimal (S (Z.to_nat (Z.log2 n))) n [])
  /\ valueOf (decimal (S (Z.to_nat (Z.log2 n))) n []) 0 = n.
Proof.
  intros Hn.
  destruct (decimal_spec (Z.to_nat (Z.log2 n)) n [] (conj Hn (fuel_enough n Hn)))
    as (ds & Heq & Hne & Hall & Hv).
  rewrite Heq, app_nil_r. split; [exact Hne|]. split; [exact Hall|].
  rewrite Hv. reflexivity.
Qed.

(** X13.  Within the safe integer range, printing an integer and parsing
    it back gives the integer: [parseInt(String(n)) = n] for
    [|n| <= Number.MAX_SAFE_INTEGER].  So when the form holds such a
    duration, the value its number input shows, read again by the change
    handler, is the duration the form holds: re-entering the displayed
    value leaves the form unchanged. *)
Theorem duration_display_roundtrip (n : Z) :
  Z.abs n <= maxSafeInteger ->
  parseInt (numberToString n) = Some n
  /\ forall cs,
       durationMinutes (edited cs) = n ->
       onChange (edited cs) (ChangeDurationMinutes (numberToString n))
       = edited cs.
Proof.
  intros _.
  assert (Hrt : parseInt (numberToString n) = Some n).
  { unfold numberToString. destruct (n <? 0) eqn:E.
    - apply Z.ltb_lt in E.
      destruct (decimal_digits (- n) ltac:(lia)) as (Hne & Hall & Hv).
      rewrite (proj2 (parseInt_digit_run _ Hne Hall)), Hv. f_equal. lia.
    - apply Z.ltb_ge in E.
      destruct (decimal_digits n E) as (Hne & Hall & Hv).
      now rewrite (proj1 (parseInt_digit_run _ Hne Hall)), Hv. }
  split; [exact Hrt|].
  intros cs Hcs. simpl. unfold parseIntOr. rewrite Hrt.
  assert (Hnz : durationMinutes (edited cs) <> 0).
  { destruct (edited_duration cs) as [-> | (v & _ & _ & H)]; [discriminate | exact H]. }
  rewrite <- Hcs. apply Z.eqb_neq in Hnz. rewrite Hnz. now destruct (edited cs).
Qed.

End ParsePrinted.

Section ParsePrintedWitness.
Import JS JSText CreateExemptionModal Samples.

Lemma duration_display_roundtrip_witness :
  numberToString (-5) = lit "-5"
  /\ numberToString 120 = lit "120"
  /\ parseInt (numberToString 120) = Some 120
  /\ durationMinutes (edited negativeDurationEdits) = -5
  /\ onChange (edited negativeDurationEdits)
       (ChangeDurationMinutes (numberToString (-5)))
     = edited negativeDurationEdits.
Proof.
  split; [reflexivity|]. split; [reflexivity|].
  split;
    [exact (proj1 (duration_display_roundtrip 120
                     ltac:(vm_compute; discriminate)))|].
  split; [reflexivity|].
  exact (proj2 (duration_display_roundtrip (-5) ltac:(vm_compute; discriminate))
           negativeDurationEdits eq_refl).
Defined.

End ParsePrintedWitness.

(** ** pages/Exemptions.tsx: the status badge *)

Section BadgeFacts.
Import JS ExemptionsPage.

(** X14.  The badge has three readings and [used] comes first: a used
    exemption reads Used even when it has expired, and an unused one whose
    expiry does not parse as a date reads Expired.  Expired is shown
    exactly on an unused exemption whose expiry is invalid or not after
    now. *)
Theorem status_badge_cases (newDate : jsstring -> Date) (now : Z) (e : Exemption.t) :
  (statusOf newDate now e = Used <-> Exemption.used e = true)
  /\ (Exemption.used e = false -> newDate (Exemption.expires_at e) = None ->
      statusOf newDate now e = Expired)
  /\ (statusOf newDate now e = Expired
      <-> Exemption.used e = false
          /\ (newDate (Exemption.expires_at e) = None
              \/ exists t, newDate (Exemption.expires_at e) = Some t /\ t <= now)).
Proof.
  unfold statusOf.
  destruct (Exemption.used e).
  { repeat split; try discriminate; try (intros [? _]; discriminate). }
  destruct (newDate (Exemption.expires_at e)) as [t|]; simpl.
  - destruct (now <? t) eqn:E.
    + apply Z.ltb_lt in E. repeat split; try discriminate.
      intros [_ [H | (t' & [= <-] & H)]]; [discriminate | lia].
    + apply Z.ltb_ge in E. repeat split; try discriminate; eauto.
  - repeat split; try discriminate; auto.
Qed.

End BadgeFacts.

(** ** pages/Templates.tsx: more on the schedule form *)

Section ScheduleFormMore.
Import JS Api ApplyTemplateModal Samples MoreSamples.
Variable newDate : jsstring -> Date.
Variable toISOString : Z -> jsstring.

(** X15.  The form accepts a schedule exactly when the four date and time
    inputs are filled in, both instants are valid dates with the start
    before the end, and the cron input is not empty.  Nothing else is
    looked at: the cron text is not parsed, and the schedule name, the
    namespaces and the message play no part. *)
Theorem buildSchedule_accepts_iff (f : form) :
  (exists sch, buildSchedule newDate toISOString f = Return sch)
  <-> hasWindow f = true /\ cron f <> []
      /\ exists s e, newDate (startInput f) = Some s
                     /\ newDate (endInput f) = Some e /\ s < e.
Proof.
  split.
  - intros [sch H]. apply buildSchedule_Return in H
      as (Hw & Hc & s & e & Hs & He & Hlt & _).
    split; [exact Hw|]. split; [exact Hc|]. exists s, e. auto.
  - intros (Hw & Hc & s & e & Hs & He & Hlt).
    unfold hasWindow in Hw.
    apply andb_prop in Hw as [Hw H4]. apply andb_prop in Hw as [Hw H3].
    apply andb_prop in Hw as [H1 H2].
    unfold buildSchedule. rewrite H1, H2, H3, H4, Hs, He. simpl.
    apply Z.leb_gt in Hlt. rewrite Hlt.
    apply nonEmpty_true in Hc. rewrite Hc. simpl. eauto.
Qed.

(** X16.  In the schedule that is sent, an empty namespace list and an
    empty message are left out, not sent as empty values: the JSON object
    has [namespaces] exactly when a namespace was added and [message]
    exactly when a message was typed.  The name goes out as typed. *)
Theorem schedule_optional_fields (f : form) (sch : Schedule.t) :
  buildSchedule newDate toISOString f = Return sch ->
  hasField "namespaces" (Schedule.toJSON sch)
  = match namespaces f with [] => false | _ => true end
  /\ hasField "message" (Schedule.toJSON sch) = nonEmpty (message f)
  /\ Schedule.name sch = scheduleName f
  /\ Schedule.namespaces sch
     = match namespaces f with [] => None | l => Some l end.
Proof.
  unfold buildSchedule.
  destruct (negb (nonEmpty (startDate f)) || negb (nonEmpty (startTime f)));
    [discriminate|].
  destruct (negb (nonEmpty (endDate f)) || negb (nonEmpty (endTime f)));
    [discriminate|].
  destruct (newDate (startInput f)) as [s|]; [|discriminate].
  destruct (newDate (endInput f)) as [e|]; [|discriminate].
  destruct (dateLe (Some e) (Some s)); [discriminate|].
  destruct (negb (nonEmpty (cron f))); [discriminate|].
  intros [= <-]. unfold Schedule.toJSON. simpl.
  destruct (namespaces f) as [|n l]; destruct (message f) as [|c m];
    repeat split.
Qed.

End ScheduleFormMore.

Section ScheduleFormWitnesses.
Import JS Api ApplyTemplateModal Samples MoreSamples.

Lemma schedule_optional_fields_witness :
  exists sch,
    buildSchedule RefDate.newDate RefDate.toISOString holidayForm = Return sch
    /\ hasField "namespaces" (Schedule.toJSON sch) = false
    /\ hasField "cron" (Schedule.toJSON sch) = true.
Proof.
  destruct (buildSchedule RefDate.newDate RefDate.toISOString holidayForm)
    as [sch|t] eqn:E; [|vm_compute in E; discriminate].
  exists sch. split; [reflexivity|].
  destruct (schedule_optional_fields RefDate.newDate RefDate.toISOString
              holidayForm sch E) as (H & _).
  split; [exact H|]. vm_compute in E. injection E as <-. reflexivity.
Defined.

End ScheduleFormWitnesses.

Section ApplyReplyFacts.
Import JS Api ApplyTemplateModal Samples MoreSamples.
Variable newDate : jsstring -> Date.
Variable toISOString : Z -> jsstring.
Variable fetch : HttpRequest -> fetchResult.

Lemma buildSchedule_name (f : form) (sch : Schedule.t) :
  buildSchedule newDate toISOString f = Return sch ->
  Schedule.name sch = scheduleName f.
Proof.
  unfold buildSchedule.
  destruct (negb (nonEmpty (startDate f)) || negb (nonEmpty (startTime f)));
    [discriminate|].
  destruct (negb (nonEmpty (endDate f)) || negb (nonEmpty (endTime f)));
    [discriminate|].
  destruct (newDate (startInput f)) as [s|]; [|discriminate].
  destruct (newDate (endInput f)) as [e|]; [|discriminate].
  destruct (dateLe (Some e) (Some s)); [discriminate|].
  destruct (negb (nonEmpty (cron f))); [discriminate|].
  now intros [= <-].
Qed.

(** X17.  The template modal needs more from the reply than the exemption
    modal does.  When the call itself succeeds (a 2xx answer with a
    readable envelope), the modal reports the schedule as created only if
    the envelope's [data] is an object or an array; on a reply without
    [data], or with a null or primitive one, [applyTemplate] throws and
    the modal shows a failure, although the server answered 2xx. *)
Theorem apply_template_needs_object_reply
    (tn : jsstring) (f : form) (sch : Schedule.t) (st : state) (v : value) :
  buildSchedule newDate toISOString f = Return sch ->
  (request fetch (lit "/freeze/templates/apply") POST
     (Some (applyBody tn sch)) st).1 = Return v ->
  (handleSubmit newDate toISOString fetch tn f st).1
  = match v with
    | VObj _ | VArr _ => Applied (scheduleName f)
    | _ => Failed Engine
    end.
Proof.
  intros Hb Hr. unfold handleSubmit, applyTemplate. rewrite Hb.
  rewrite <- (buildSchedule_name f sch Hb).
  destruct (request _ _ _ _ _) as [[response|t] st']; simpl in *; [|discriminate].
  injection Hr as ->. destruct v; reflexivity.
Qed.


End ApplyReplyFacts.

Section ApplyReplyWitnesses.
Import JS Api ApplyTemplateModal Samples MoreSamples.

(** An envelope with no [data]: the answer is 200, the modal fails. *)
Lemma apply_template_needs_object_reply_witness :
  (handleSubmit RefDate.newDate RefDate.toISOString (okReply VUndefined)
     (lit "weekend") holidayForm (init None)).1 = Failed Engine.
Proof.
  destruct (buildSchedule RefDate.newDate RefDate.toISOString holidayForm)
    as [sch|t] eqn:E; [|vm_compute in E; discriminate].
  exact (apply_template_needs_object_reply RefDate.newDate RefDate.toISOString
           (okReply VUndefined) (lit "weekend") holidayForm sch (init None)
           VUndefined E eq_refl).
Defined.

End ApplyReplyWitnesses.

(** ** pages/Templates.tsx: the namespace chips *)

Section NamespaceFacts.
Import JS JSText NamespaceList.

Lemma includes_In (l : list jsstring) (x : jsstring) :
  includes l x = true <-> In x l.
Proof.
  unfold includes. rewrite existsb_exists. split.
  - intros (y & Hin & Hy). apply bool_decide_eq_true in Hy. now subst.
  - intros H. exists x. split; [exact H | now apply bool_decide_eq_true].
Qed.

(** What Add does: nothing, or one new trimmed name at the end. *)
Lemma handleAddNamespace_cases (c : cells) :
  handleAddNamespace c = c
  \/ (trim (namespaceInput c) <> []
      /\ ~ In (trim (namespaceInput c)) (namespaces c)
      /\ handleAddNamespace c
         = {| namespaces := namespaces c ++ [trim (namespaceInput c)];
              namespaceInput := [] |}).
Proof.
  unfold handleAddNamespace.
  destruct (nonEmpty (trim (namespaceInput c))) eqn:E1; simpl; [|now left].
  destruct (includes (namespaces c) (trim (namespaceInput c))) eqn:E2; simpl;
    [now left|].
  right. apply nonEmpty_true in E1. split; [exact E1|]. split; [|reflexivity].
  intros Hin. apply includes_In in Hin. congruence.
Qed.

(** The two invariants of the chip list, for one action. *)
Lemma act_keeps (fromTemplate : list jsstring) (c : cells) (a : action) :
  (List.NoDup (namespaces c) -> List.NoDup (namespaces (act c a)))
  /\ ((forall n, In n (namespaces c) ->
         In n fromTemplate \/ (n <> [] /\ trim n = n)) ->
      forall n, In n (namespaces (act c a)) ->
        In n fromTemplate \/ (n <> [] /\ trim n = n)).
Proof.
  destruct a as [v| |ns]; simpl.
  - split; auto.
  - destruct (handleAddNamespace_cases c) as [-> | (Hne & Hnin & ->)];
      [split; auto|]. simpl. split.
    + intros Hnd. apply List.NoDup_app; [exact Hnd | repeat constructor; intros [] |].
      intros a Ha [<- | []]. contradiction.
    + intros H n Hin. apply in_app_or in Hin as [Hin | [<- | []]]; [now apply H|].
      right. split; [exact Hne | apply trim_idem].
  - split.
    + apply List.NoDup_filter.
    + intros H n Hin. apply filter_In in Hin as [Hin _]. now apply H.
Qed.

(** X19.  Through any session of typing, adding and removing, the chip
    list keeps its shape: if the template's list had no duplicates the
    list never gets one, and every namespace that did not come from the
    template is non-empty and trimmed. *)
Theorem namespace_chips_invariant (fromTemplate : list jsstring) (acts : list action) :
  (List.NoDup fromTemplate -> List.NoDup (namespaces (session fromTemplate acts)))
  /\ (forall n, In n (namespaces (session fromTemplate acts)) ->
        In n fromTemplate \/ (n <> [] /\ trim n = n)).
Proof.
  unfold session.
  set (c0 := {| namespaces := fromTemplate; namespaceInput := [] |}).
  assert (H0 : (List.NoDup fromTemplate -> List.NoDup (namespaces c0))
               /\ (forall n, In n (namespaces c0) ->
                     In n fromTemplate \/ (n <> [] /\ trim n = n))).
  { split; [auto | intros n Hin; now left]. }
  clearbody c0. revert c0 H0.
  induction acts as [|a acts IH]; intros c0 H0; [exact H0|].
  simpl. apply IH. destruct H0 as [H1 H2].
  destruct (act_keeps fromTemplate c0 a) as [K1 K2]. split; auto.
Qed.

(** X20.  Removing a chip removes every occurrence of that namespace and
    nothing else, and leaves the input alone.  Removing a namespace right
    after adding it gives back the list from before. *)
Theorem remove_namespace_roundtrip (ns : jsstring) (c : cells) :
  ~ In ns (namespaces (handleRemoveNamespace ns c))
  /\ (forall n, n <> ns ->
        (In n (namespaces (handleRemoveNamespace ns c)) <-> In n (namespaces c)))
  /\ namespaceInput (handleRemoveNamespace ns c) = namespaceInput c
  /\ (trim (namespaceInput c) <> [] ->
      ~ In (trim (namespaceInput c)) (namespaces c) ->
      namespaces (handleRemoveNamespace (trim (namespaceInput c))
                    (handleAddNamespace c))
      = namespaces c).
Proof.
  split; [|split; [|split]].
  - simpl. intros Hin. apply filter_In in Hin as [_ H].
    apply negb_true_iff, bool_decide_eq_false in H. contradiction.
  - intros n Hn. simpl. rewrite filter_In. split; [now intros [? _]|].
    intros Hin. split; [exact Hin|].
    apply negb_true_iff, bool_decide_eq_false. exact Hn.
  - reflexivity.
  - intros Hne Hnin.
    destruct (handleAddNamespace_cases c) as [Heq | (_ & _ & ->)].
    + exfalso. unfold handleAddNamespace in Heq.
      apply nonEmpty_true in Hne. rewrite Hne in Heq.
      destruct (includes (namespaces c) (trim (namespaceInput c))) eqn:E.
      * apply includes_In in E. contradiction.
      * simpl in Heq. apply (f_equal namespaces) in Heq. simpl in Heq.
        apply (f_equal (@length _)) in Heq. rewrite length_app in Heq.
        simpl in Heq. lia.
    + simpl. rewrite List.filter_app. simpl.
      rewrite bool_decide_eq_true_2 by reflexivity. simpl.
      rewrite app_nil_r. apply forallb_filter_id. apply forallb_forall.
      intros x Hx. apply negb_true_iff, bool_decide_eq_false. congruence.
Qed.

End NamespaceFacts.

(** ** pages/Templates.tsx: parseDateString *)

Section ParseDateFacts.
Import JS JSText TemplateDates Samples MoreSamples.
Variable newDate : jsstring -> Date.
Variable toISOString : Z -> jsstring.
Variable toTimeString : Z -> jsstring.

(** A string matched by the anchored pattern, spelt out. *)
Lemma isoPattern_shape (s : jsstring) :
  matchesAt isoPattern s = true ->
  exists y1 y2 y3 y4 m1 m2 d1 d2 h1 h2 n1 n2 s1 s2 rest,
    s = [y1; y2; y3; y4; 45%N; m1; m2; 45%N; d1; d2; 84%N;
         h1; h2; 58%N; n1; n2; 58%N; s1; s2] ++ rest
    /\ matchesAt monthDayPattern s = true.
Proof.
  unfold isoPattern, monthDayPattern. intros H.
  do 19 (destruct s as [|? s];
         [simpl in H; rewrite ?andb_false_r in H; discriminate|]).
  simpl in H. repeat (apply andb_prop in H as [? H]).
  repeat match goal with
         | E : (_ =? _)%N = true |- _ => apply N.eqb_eq in E; subst
         end.
  do 15 eexists. split; [reflexivity|].
  cbn [matchesAt atomMatches].
  repeat match goal with
         | E : isDigit _ = true |- _ => rewrite E; clear E
         end.
  reflexivity.
Qed.

(** X21.  When the host cannot parse a template date, [parseDateString]
    falls back on the text.  A string that starts like
    [YYYY-MM-DDTHH:mm:ss] gives its first ten characters as the date and
    characters 11 to 15 as the time, out-of-range fields included; the
    built-in [01-01] is never used.  Any other string gives the empty date
    and 00:00. *)
Theorem parseDateString_fallback (s : jsstring) :
  newDate s = None ->
  parseDateString newDate toISOString toTimeString (Some s)
  = if matchesAt isoPattern s
    then {| date := slice 0 10 s; time := slice 11 16 s |}
    else {| date := []; time := lit "00:00" |}.
Proof.
  intros Hd. unfold parseDateString. rewrite Hd.
  destruct s as [|c s]; [reflexivity|].
  destruct (matchesAt isoPattern (c :: s)) eqn:E; [|reflexivity].
  destruct (isoPattern_shape _ E) as
    (y1 & y2 & y3 & y4 & m1 & m2 & d1 & d2 & h1 & h2 & n1 & n2 & s1 & s2
     & rest & Hs & Hm).
  unfold search. destruct (c :: s) as [|c' s'] eqn:Ecs; [discriminate|].
  rewrite Hm. rewrite Hs. reflexivity.
Qed.

End ParseDateFacts.

Section ParseDateWitness.
Import JS JSText TemplateDates Samples MoreSamples.

Lemma parseDateString_fallback_witness :
  parseDateString rejectAll noString noString (Some badMonth)
  = {| date := lit "2025-13-01"; time := lit "10:30" |}.
Proof.
  exact (parseDateString_fallback rejectAll noString noString badMonth eq_refl).
Defined.

End ParseDateWitness.

(** ** App.tsx: the routes *)

Section RouteFacts.
Import App.

(** X22.  Every route settles within two redirects, on the login form or
    on a page.  Without authentication it is always the login form: no
    protected page is ever rendered.  With authentication every route but
    [/login] ends on a page, unknown paths on the dashboard. *)
Theorem routes_settle (isAuthenticated : bool) (r : route) :
  exists shown,
    settle 2 isAuthenticated r = Some shown
    /\ (shown = LoginForm \/ exists p, shown = Page p)
    /\ (isAuthenticated = false -> shown = LoginForm)
    /\ (isAuthenticated = true -> r <> LoginPath -> exists p, shown = Page p)
    /\ (isAuthenticated = true -> r = AnyOtherPath -> shown = Page Dashboard).
Proof.
  destruct isAuthenticated, r; simpl; eexists; (split; [reflexivity|]);
    repeat split; eauto; try discriminate; try congruence.
Qed.

End RouteFacts.

(* ===================================================================== *)
(** * Properties of the chart helpers *)
(* ===================================================================== *)

Section HelmFacts.
Import Helm MoreSamples.

Lemma trimSuffix_prefix (suffix s : gostring) :
  exists rest, s = trimSuffix suffix s ++ rest.
Proof.
  unfold trimSuffix. destruct (hasSuffix suffix s).
  - exists (skipn (length s - length suffix) s). symmetry. apply firstn_skipn.
  - exists []. now rewrite app_nil_r.
Qed.

Lemma trimSuffix_length (suffix s : gostring) :
  (length (trimSuffix suffix s) <= length s)%nat.
Proof.
  destruct (trimSuffix_prefix suffix s) as [rest H].
  rewrite H at 2. rewrite length_app. lia.
Qed.

Lemma trimmed_trunc_length (s : gostring) :
  (length (trimSuffix (str "-") (trunc 63 s)) <= 63)%nat.
Proof.
  etransitivity; [apply trimSuffix_length|]. apply firstn_le_length.
Qed.

Lemma trimmed_trunc_prefix (s : gostring) :
  exists rest, s = trimSuffix (str "-") (trunc 63 s) ++ rest.
Proof.
  destruct (trimSuffix_prefix (str "-") (trunc 63 s)) as [rest H].
  exists (rest ++ skipn 63 s).
  rewrite app_assoc, <- H. symmetry. apply firstn_skipn.
Qed.

Lemma hasPrefix_refl (s : gostring) : hasPrefix s s = true.
Proof.
  induction s as [|a s IH]; simpl; [reflexivity|].
  now rewrite Ascii.eqb_refl.
Qed.

Lemma contains_refl (s : gostring) : contains s s = true.
Proof. destruct s; simpl; [reflexivity|]. now rewrite Ascii.eqb_refl, hasPrefix_refl. Qed.

(** X23.  The three names the chart derives ([kube-freezer.name],
    [kube-freezer.fullname], [kube-freezer.chart]) are at most 63 bytes
    long, whatever the chart, the values and the release are called. *)
Theorem helm_names_fit_label (c : Chart) (v : Values) (r : Release) :
  (length (name c v) <= 63)%nat
  /\ (length (fullname c v r) <= 63)%nat
  /\ (length (chart c) <= 63)%nat.
Proof.
  split; [apply trimmed_trunc_length|]. split; [|apply trimmed_trunc_length].
  unfold fullname. destruct (fullnameOverride v); [|apply trimmed_trunc_length].
  destruct (contains _ _); apply trimmed_trunc_length.
Qed.

(** X24.  A release name that already contains the chart's name is not
    extended: the full name is then a prefix of the release name.  In
    particular a release called like the chart (no overrides) gets the
    chart's short name as its full name, not the name twice. *)
Theorem fullname_of_release_containing_name (c : Chart) (v : Values) (r : Release) :
  fullnameOverride v = [] ->
  contains (default (Chart_Name c) (nameOverride v)) (Release_Name r) = true ->
  (exists rest, Release_Name r = fullname c v r ++ rest)
  /\ (Release_Name r = default (Chart_Name c) (nameOverride v) ->
      fullname c v r = name c v).
Proof.
  intros Ho Hc. unfold fullname, name. rewrite Ho, Hc. split.
  - apply trimmed_trunc_prefix.
  - now intros ->.
Qed.

Lemma fullname_of_release_containing_name_witness :
  fullname kubeFreezerChart noOverrides ownRelease = str "kube-freezer"
  /\ fullname kubeFreezerChart noOverrides ownRelease
     = name kubeFreezerChart noOverrides.
Proof.
  split; [reflexivity|].
  apply (fullname_of_release_containing_name kubeFreezerChart noOverrides
           ownRelease eq_refl eq_refl).
  reflexivity.
Defined.

Lemma In_trimSuffix (x : Ascii.ascii) (suffix s : gostring) :
  In x (trimSuffix suffix s) -> In x s.
Proof.
  destruct (trimSuffix_prefix suffix s) as [rest H]. intros Hin.
  rewrite H. apply in_or_app. now left.
Qed.

(** X25.  The chart label never contains a plus sign: every [+] of the
    chart name and version (a semantic version may carry build metadata
    after one) is replaced before the label is cut to length. *)
Theorem chart_label_has_no_plus (c : Chart) : ~ In plus (chart c).
Proof.
  unfold chart. intros Hin.
  apply In_trimSuffix in Hin. unfold trunc in Hin.
  assert (Hin' : In plus (replace plus (str "_") (dashed (Chart_Name c) (Chart_Version c)))).
  { rewrite <- (firstn_skipn 63 (replace _ _ _)). apply in_or_app. now left. }
  unfold replace in Hin'. apply in_flat_map in Hin' as (a & _ & Ha).
  destruct (Ascii.eqb a plus) eqn:E.
  - destruct Ha as [Ha | []]. vm_compute in Ha. discriminate.
  - destruct Ha as [-> | []]. now rewrite Ascii.eqb_refl in E.
Qed.

End HelmFacts.
